(** * Price optimisation core: demand estimation and golden-section search

    A shallow embedding of [golden_section.py]: the golden-section optimiser
    ([golden_section_search]), the demand and profit functions
    ([talep_fonksiyonu], [kar_fonksiyonu]), the demand estimator
    ([estimate_demand_parameters]) and the orchestrator ([run_optimization]).

    The program computes on Python floats.  Every definition below is
    written once, over an interface [Scalar] of the arithmetic the program
    uses, and is read at two instances:

    - [float], the kernel's IEEE 754 binary64 numbers: the operations round
      exactly as Python's do, so a concrete run of the program is obtained by
      evaluation;
    - [R], the real numbers: the same program under exact arithmetic, for the
      properties that are statements of algebra. *)

From Stdlib Require Import ZArith List Bool Lia.
From Stdlib Require Import Floats Uint63.
From Stdlib Require Import Reals Lra.
From Stdlib Require String Ascii DecimalString.
Import ListNotations.

Set Implicit Arguments.

(* ================================================================== *)
(** * The arithmetic interface *)
(* ================================================================== *)

(** The operations of a Python float that the program uses.  [s_ltb x y] is
    [x < y]; [s_trunc] is [int(x)], which raises on NaN and on the
    infinities ([None]); [s_of_Z] is the conversion of a Python int. *)
Class Scalar (T : Type) : Type := {
  s_add : T -> T -> T;
  s_sub : T -> T -> T;
  s_mul : T -> T -> T;
  s_div : T -> T -> T;
  s_opp : T -> T;
  s_abs : T -> T;
  s_sqrt : T -> T;
  s_ltb : T -> T -> bool;
  s_isnan : T -> bool;
  s_of_Z : Z -> T;
  s_trunc : T -> option Z
}.

Declare Scope scalar_scope.
Delimit Scope scalar_scope with sc.
Infix "+" := s_add : scalar_scope.
Infix "-" := s_sub : scalar_scope.
Infix "*" := s_mul : scalar_scope.
Infix "/" := s_div : scalar_scope.
Notation "- x" := (s_opp x) : scalar_scope.
Notation "x <? y" := (s_ltb x y) : scalar_scope.
Notation "x >? y" := (s_ltb y x) : scalar_scope.
Notation "# z" := (s_of_Z z%Z) (at level 1, format "# z") : scalar_scope.

(** A decimal literal [n/d] of the source: the correctly rounded quotient of
    two exactly represented integers is the double nearest to the decimal,
    which is what Python's parser produces for [0.05], [0.1], [0.7], [1e-3]. *)
Definition s_lit {T} `{Scalar T} (n d : Z) : T := (#n / #d)%sc.

(** ** IEEE 754 binary64 *)

Module F64.

Definition of_Z (z : Z) : float :=
  match z with
  | Z0 => PrimFloat.zero
  | Zpos _ => PrimFloat.of_uint63 (Uint63.of_Z z)
  | Zneg p => PrimFloat.opp (PrimFloat.of_uint63 (Uint63.of_Z (Zpos p)))
  end.

(** [int(x)]: truncation towards zero, an error on NaN and infinities. *)
Definition trunc (x : float) : option Z :=
  match Prim2SF x with
  | S754_zero _ => Some 0%Z
  | S754_finite s m e =>
      let v := match e with
               | Zneg k => Z.shiftr (Zpos m) (Zpos k)
               | _ => Z.shiftl (Zpos m) e
               end in
      Some (if s then Z.opp v else v)
  | S754_infinity _ | S754_nan => None
  end.

#[global] Instance scalar : Scalar float := {|
  s_add := PrimFloat.add;
  s_sub := PrimFloat.sub;
  s_mul := PrimFloat.mul;
  s_div := PrimFloat.div;
  s_opp := PrimFloat.opp;
  s_abs := PrimFloat.abs;
  s_sqrt := PrimFloat.sqrt;
  s_ltb := PrimFloat.ltb;
  s_isnan := PrimFloat.is_nan;
  s_of_Z := of_Z;
  s_trunc := trunc
|}.

(** [x <= y] on doubles, used to state bounds on computed results. *)
Definition le (x y : float) : Prop := PrimFloat.leb x y = true.

End F64.

(** ** Exact real arithmetic *)

Module Exact.

Definition ltb (x y : R) : bool := if Rlt_dec x y then true else false.

Definition trunc (x : R) : option Z :=
  Some (if Rle_dec 0 x then Int_part x else Z.opp (Int_part (- x))).

#[global] Instance scalar : Scalar R := {|
  s_add := Rplus;
  s_sub := Rminus;
  s_mul := Rmult;
  s_div := Rdiv;
  s_opp := Ropp;
  s_abs := Rabs;
  s_sqrt := sqrt;
  s_ltb := ltb;
  s_isnan := fun _ => false;
  s_of_Z := IZR;
  s_trunc := trunc
|}.

End Exact.

(* ================================================================== *)
(** * Golden-section search *)
(* ================================================================== *)

Section GoldenSection.

Context {T : Type} `{Scalar T}.
Local Open Scope scalar_scope.

(** [phi = (np.sqrt(5) - 1) / 2] *)
Definition phi : T := (s_sqrt #5 - #1) / #2.

(** The default [tol=1e-3]. *)
Definition default_tol : T := s_lit 1 1000.

(** The local variables of [golden_section_search] that the loop updates. *)
Record SearchState : Type := MkSearch {
  gs_a : T;
  gs_b : T;
  gs_x1 : T;
  gs_x2 : T;
  gs_f1 : T;
  gs_f2 : T;
  gs_iteration : Z
}.

(** The state on entry to the [while]: the two interior points and the
    values of [func] there. *)
Definition initial_state (func : T -> T) (a b : T) : SearchState :=
  let x1 := b - phi * (b - a) in
  let x2 := a + phi * (b - a) in
  MkSearch a b x1 x2 (func x1) (func x2) 0.

(** [abs(b - a) > tol and iteration < 100] *)
Definition loop_guard (tol : T) (st : SearchState) : bool :=
  (s_abs (gs_b st - gs_a st) >? tol) && (gs_iteration st <? 100)%Z.

(** One pass through the body of the [while]. *)
Definition loop_body (func : T -> T) (st : SearchState) : SearchState :=
  let iteration := (gs_iteration st + 1)%Z in
  if gs_f1 st >? gs_f2 st then
    let b := gs_x2 st in
    let x2 := gs_x1 st in
    let f2 := gs_f1 st in
    let x1 := b - phi * (b - gs_a st) in
    MkSearch (gs_a st) b x1 x2 (func x1) f2 iteration
  else
    let a := gs_x1 st in
    let x1 := gs_x2 st in
    let f1 := gs_f2 st in
    let x2 := a + phi * (gs_b st - a) in
    MkSearch a (gs_b st) x1 x2 f1 (func x2) iteration.

(** The [while] loop; [None] when [fuel] passes do not reach a state that
    fails the guard. *)
Fixpoint while_loop (fuel : nat) (func : T -> T) (tol : T)
    (st : SearchState) : option SearchState :=
  if loop_guard tol st then
    match fuel with
    | O => None
    | S fuel' => while_loop fuel' func tol (loop_body func st)
    end
  else Some st.

(** [(optimal_x, maximum_value, iteration)] from the state after the loop. *)
Definition search_result (func : T -> T) (st : SearchState) : T * T * Z :=
  let optimal_x := (gs_a st + gs_b st) / #2 in
  (optimal_x, func optimal_x, gs_iteration st).

Definition golden_section_search_fuel (fuel : nat) (func : T -> T)
    (a b tol : T) : option (T * T * Z) :=
  option_map (search_result func)
    (while_loop fuel func tol (initial_state func a b)).

(** The guard stops the loop after at most 100 passes, so 100 passes of
    fuel never run out ([while_loop_enough]) and more fuel changes nothing
    ([golden_section_search_fuel_irrelevant]). *)
Definition golden_section_search
  : (T -> T) -> T -> T -> T -> option (T * T * Z) :=
  golden_section_search_fuel 100.

(** The state at the start of pass [n + 1] of the loop, when the loop gets
    that far: [n] passes, the guard holding before each. *)
Fixpoint state_after (n : nat) (func : T -> T) (tol : T)
    (st : SearchState) : option SearchState :=
  match n with
  | O => Some st
  | S n' =>
      if loop_guard tol st then state_after n' func tol (loop_body func st)
      else None
  end.

(** [st] is the state at the start of some pass of the loop run on
    [func], [[a, b]] and [tol]. *)
Definition at_iteration_start (func : T -> T) (a b tol : T)
    (st : SearchState) : Prop :=
  exists n, state_after n func tol (initial_state func a b) = Some st
            /\ loop_guard tol st = true.

(** The cached values are the values of [func] at the interior points. *)
Definition cache_correct (func : T -> T) (st : SearchState) : Prop :=
  gs_f1 st = func (gs_x1 st) /\ gs_f2 st = func (gs_x2 st).

End GoldenSection.

Arguments SearchState T : clear implicits.
Arguments phi : simpl never.

(* ================================================================== *)
(** * Demand, profit and the price bracket *)
(* ================================================================== *)

Section Demand.

Context {T : Type} `{Scalar T}.
Local Open Scope scalar_scope.

(** Python's [max] and [min] over a non-empty sequence: the first element
    is kept until a strictly larger (smaller) one is met. *)
Definition py_max (x : T) (xs : list T) : T :=
  fold_left (fun m v => if v >? m then v else m) xs x.

Definition py_min (x : T) (xs : list T) : T :=
  fold_left (fun m v => if v <? m then v else m) xs x.

Definition get_price_range (prices : list T) : T * T :=
  match prices with
  | p :: ps => (py_min p ps, py_max p ps)
  | [] => (#0, #1000)
  end.

(** [max(0, a_d - b_d * f)] *)
Definition talep_fonksiyonu (f a_d b_d : T) : T :=
  py_max #0 [a_d - b_d * f].

(** [(f - C) * talep_fonksiyonu(f, a_d, b_d)] *)
Definition kar_fonksiyonu (f C a_d b_d : T) : T :=
  (f - C) * talep_fonksiyonu f a_d b_d.

End Demand.

(* ================================================================== *)
(** * The demand estimator *)
(* ================================================================== *)

Section Estimator.

Context {T : Type} `{Scalar T}.
Local Open Scope scalar_scope.

(** A fitted [LinearRegression] on one feature: [coef_[0]] and
    [intercept_]. *)
Record LinearModel : Type := MkModel {
  coef_ : T;
  intercept_ : T
}.

(** The two scikit-learn entry points the estimator calls.  They are not
    part of this repository, so the estimator takes them as a parameter:
    [LinearRegression_fit fit_intercept X y] is
    [LinearRegression(fit_intercept=...).fit(X, y)] and [r2_score] is
    [sklearn.metrics.r2_score]; [None] stands for a raised exception. *)
Record Sklearn : Type := MkSklearn {
  LinearRegression_fit : bool -> list T -> list T -> option LinearModel;
  r2_score : list T -> list T -> option T
}.

(** [model.predict(X)] *)
Definition predict (m : LinearModel) (X : list T) : list T :=
  map (fun x => x * coef_ m + intercept_ m) X.

(** The dictionary the estimator returns. *)
Record DemandParameters : Type := MkParams {
  a_d : T;
  b_d : T;
  r2 : T;
  model : LinearModel;
  intercept : T
}.

(** [data.dropna()] on the two-column frame: a row stays when neither its
    price nor its rating is NaN. *)
Definition dropna (data : list (T * T)) : list (T * T) :=
  filter (fun row => negb (s_isnan (fst row)) && negb (s_isnan (snd row)))
         data.

(** [max(100, int(len(prices) * 0.1))]; [None] if [int] raises. *)
Definition default_max_theoretical_demand (sample_count : nat) : option T :=
  match s_trunc (#(Z.of_nat sample_count) * s_lit 1 10) with
  | Some k => Some #(Z.max 100 k)
  | None => None
  end.

(** [data['rating'] / data['rating'].max()] on the non-empty frame
    [row :: rows]. *)
Definition demand_proportion (row : T * T) (rows : list (T * T)) : list T :=
  let max_rating := py_max (snd row) (map snd rows) in
  map (fun r => snd r / max_rating) (row :: rows).

(** Lines 69-128 of the source: from the cleaned, non-empty frame to the
    result.  Everything from the first [fit] on is inside the [try];
    an exception there makes the function return [None]. *)
Definition fit_demand_curve (sk : Sklearn) (sample_count : nat)
    (row : T * T) (rows : list (T * T))
    (max_theoretical_demand : option T) : option DemandParameters :=
  let data := row :: rows in
  let X := map fst data in
  let y := map (fun d => #1 - d) (demand_proportion row rows) in
  match LinearRegression_fit sk true X y with
  | None => None
  | Some model_with_intercept =>
      let intercept := intercept_ model_with_intercept in
      let fit_intercept :=
        if s_abs intercept <? s_lit 5 100 then false else true in
      match LinearRegression_fit sk fit_intercept X y with
      | None => None
      | Some model =>
          let mtd :=
            match max_theoretical_demand with
            | Some m => Some m
            | None => default_max_theoretical_demand sample_count
            end in
          match mtd with
          | None => None
          | Some max_theoretical_demand =>
              let a_d := max_theoretical_demand in
              let b_d :=
                if coef_ model <? #0
                then s_abs (coef_ model) * max_theoretical_demand
                else coef_ model * max_theoretical_demand in
              match r2_score sk y (predict model X) with
              | None => None
              | Some r2 => Some (MkParams a_d b_d r2 model (intercept_ model))
              end
          end
      end
  end.

Definition is_empty {A : Type} (l : list A) : bool :=
  match l with [] => true | _ => false end.

(** [estimate_demand_parameters(prices, ratings, max_theoretical_demand)];
    [None] is the Python [None] the function returns on every failure. *)
Definition estimate_demand_parameters (sk : Sklearn)
    (prices ratings : list T) (max_theoretical_demand : option T)
    : option DemandParameters :=
  if is_empty prices || is_empty ratings then None
  else if negb (length prices =? length ratings)%nat then None
  else
    let data := combine prices (map (fun r => r * #100) ratings) in
    match dropna data with
    | [] => None
    | row :: rows =>
        fit_demand_curve sk (length prices) row rows max_theoretical_demand
    end.

(** The estimator as the specification describes it with step 1 (the
    scaling of the ratings by 100) left out; every other step is the
    source's. *)
Definition estimate_demand_parameters_unscaled (sk : Sklearn)
    (prices ratings : list T) (max_theoretical_demand : option T)
    : option DemandParameters :=
  if is_empty prices || is_empty ratings then None
  else if negb (length prices =? length ratings)%nat then None
  else
    match dropna (combine prices ratings) with
    | [] => None
    | row :: rows =>
        fit_demand_curve sk (length prices) row rows max_theoretical_demand
    end.

End Estimator.

Arguments LinearModel T : clear implicits.
Arguments Sklearn T : clear implicits.
Arguments DemandParameters T : clear implicits.

(* ================================================================== *)
(** * The orchestrator *)
(* ================================================================== *)

Section Orchestrator.

Context {T : Type} `{Scalar T}.
Local Open Scope scalar_scope.

(** The dictionary [run_optimization] returns. *)
Record OptimizationResult : Type := MkResult {
  optimum_price : T;
  maximum_profit : T;
  estimated_demand : T;
  iterations : Z;
  demand_parameters : DemandParameters T;
  price_range : T * T;
  cost : T
}.

Definition run_optimization (sk : Sklearn T) (prices ratings : list T)
    (cost max_theoretical_demand : option T) : option OptimizationResult :=
  let '(lowest_price, highest_price) := get_price_range prices in
  match estimate_demand_parameters sk prices ratings max_theoretical_demand with
  | None => None
  | Some params =>
      let cost :=
        match cost with
        | Some c => c
        | None => match prices with
                  | p :: ps => py_min p ps * s_lit 7 10
                  | [] => #10
                  end
        end in
      let profit_function price :=
        kar_fonksiyonu price cost (a_d params) (b_d params) in
      match golden_section_search profit_function lowest_price highest_price
              default_tol with
      | None => None
      | Some (optimum_price, maximum_profit, iterations) =>
          Some (MkResult optimum_price maximum_profit
                  (talep_fonksiyonu optimum_price (a_d params) (b_d params))
                  iterations params (lowest_price, highest_price) cost)
      end
  end.

End Orchestrator.

Arguments OptimizationResult T : clear implicits.

(* ================================================================== *)
(** * The scraper's data assembly *)
(* ================================================================== *)

(** [scrape.py] fetches result pages and finds the product elements with
    external libraries.  What is modelled is what [search_product] does
    with the elements it found: the extraction loop, the imputation of the
    missing ratings, and [get_search_url]. *)

(** What a product element yields for its rating or its price: no element
    or no text, a text that [float] rejects, or a number. *)
Inductive Field (T : Type) : Type :=
| Missing
| Unparsable
| Parsed (x : T).

Arguments Missing {T}.
Arguments Unparsable {T}.
Arguments Parsed {T} x.

Record Product (T : Type) : Type := MkProduct {
  rating_field : Field T;
  price_field : Field T
}.

(** The loop appends a rating for the product: its rating text, if any,
    is a number. *)
Definition rating_appended {T : Type} (product : Product T) : bool :=
  match rating_field product with
  | Unparsable => false
  | _ => true
  end.

(** The loop appends a price for the product: it got past the rating and
    the price text is a number. *)
Definition price_appended {T : Type} (product : Product T) : bool :=
  rating_appended product
  && match price_field product with
     | Parsed _ => true
     | _ => false
     end.

Section Scraper.

Context {T : Type} `{Scalar T}.
Local Open Scope scalar_scope.

(** One pass of the extraction loop on the accumulated
    [(ratings, prices)].  The rating comes first: an unreadable rating text
    raises before anything is appended, and the [except] skips the product;
    a missing rating is appended as 0.  The price is appended only when its
    element is there and its text is a number; an unreadable price text
    raises after the rating was appended. *)
Definition extract_product (acc : list T * list T) (product : Product T)
    : list T * list T :=
  let '(ratings, prices) := acc in
  match rating_field product with
  | Unparsable => (ratings, prices)
  | Missing =>
      match price_field product with
      | Parsed price => (ratings ++ [#0], prices ++ [price])
      | _ => (ratings ++ [#0], prices)
      end
  | Parsed rating =>
      match price_field product with
      | Parsed price => (ratings ++ [rating], prices ++ [price])
      | _ => (ratings ++ [rating], prices)
      end
  end.

(** The [for product in pro] loop: [(ratings, prices)]. *)
Definition extract_products (pro : list (Product T)) : list T * list T :=
  fold_left extract_product pro ([], []).

(** [np.mean] is numpy's; the imputation takes it as a parameter. *)
Variable np_mean : list T -> T.

(** [valid_ratings = [r for r in ratings if r > 0]] *)
Definition valid_ratings (ratings : list T) : list T :=
  filter (fun r => r >? #0) ratings.

(** [np.mean(valid_ratings) if valid_ratings else 0] *)
Definition mean_rating (ratings : list T) : T :=
  match valid_ratings ratings with
  | [] => #0
  | valid => np_mean valid
  end.

(** [[rating if rating > 0 else mean_rating for rating in ratings]] *)
Definition people_rate (ratings : list T) : list T :=
  let m := mean_rating ratings in
  map (fun rating => if rating >? #0 then rating else m) ratings.

(** The first two components of what [search_product] returns for the
    product elements [pro]. *)
Definition product_data (pro : list (Product T)) : list T * list T :=
  let '(ratings, prices) := extract_products pro in
  (prices, people_rate ratings).

End Scraper.

Module Url.

Import String Ascii.
Local Open Scope string_scope.

Definition BASE_URL : string := "https://www.n11.com/arama?q=".

(** [s.replace(old, new)] for one-character [old] and [new]. *)
Fixpoint replace_char (old new : ascii) (s : string) : string :=
  match s with
  | EmptyString => EmptyString
  | String c rest =>
      String (if Ascii.eqb c old then new else c) (replace_char old new rest)
  end.

(** [str(page)] for a Python int. *)
Definition str (page : Z) : string :=
  DecimalString.NilZero.string_of_int (Z.to_int page).

Definition get_search_url (product_name sort_by : string) (page : Z)
    : string :=
  let query := replace_char " " "+" product_name in
  BASE_URL ++ query ++ "&srt=" ++ sort_by ++ "&pg=" ++ str page.

(** The default [sort_by="REVIEWS"]. *)
Definition default_sort_by : string := "REVIEWS".

(** The character occurs nowhere in the string. *)
Fixpoint free_of (c : ascii) (s : string) : bool :=
  match s with
  | EmptyString => true
  | String d rest => negb (Ascii.eqb d c) && free_of c rest
  end.

End Url.

(* ================================================================== *)
(** * A reference least-squares library *)
(* ================================================================== *)

Section LeastSquares.

Context {T : Type} `{Scalar T}.
Local Open Scope scalar_scope.

Definition sum (l : list T) : T := fold_left s_add l #0.

Definition mean (l : list T) : T := sum l / #(Z.of_nat (length l)).

(** Neither NaN nor infinite: [x - x] is NaN exactly for those. *)
Definition is_finite (x : T) : bool := negb (s_isnan (x - x)).

Definition all_finite (l : list T) : bool := forallb is_finite l.

Definition is_zero (x : T) : bool := negb (x <? #0) && negb (#0 <? x).

(** [num / den], and 0 for a zero denominator (the minimum-norm solution
    of a rank-deficient system). *)
Definition ratio_or_zero (num den : T) : T :=
  if is_zero den then #0 else num / den.

Definition products (u v : list T) : list T :=
  map (fun p => fst p * snd p) (combine u v).

Definition centred (l : list T) : list T :=
  let m := mean l in map (fun x => x - m) l.

(** Modelled from the spec: scikit-learn's [LinearRegression.fit] and
    [r2_score] are not in this repository.  The fit is the ordinary least
    squares line of the specification's step 3, "once with an intercept
    term, once forced through the origin", in closed form, and it raises
    (the specification's [RegressionFailure]) on an empty sample or one
    that holds a NaN or an infinity; the score is the coefficient of
    determination [1 - SS_res / SS_tot].  The estimator's theorems hold
    for every library record; this one is used to run the estimator. *)
Definition ols_fit (fit_intercept : bool) (X y : list T)
    : option (LinearModel T) :=
  if is_empty X || negb (all_finite X) || negb (all_finite y) then None
  else if fit_intercept then
    let cx := centred X in
    let cy := centred y in
    let coef := ratio_or_zero (sum (products cx cy)) (sum (products cx cx)) in
    Some (MkModel coef (mean y - coef * mean X))
  else
    let coef := ratio_or_zero (sum (products X y)) (sum (products X X)) in
    Some (MkModel coef #0).

Definition ols_r2_score (y_true y_pred : list T) : option T :=
  if is_empty y_true || negb (all_finite y_true) || negb (all_finite y_pred)
  then None
  else
    let residual := map (fun p => fst p - snd p) (combine y_true y_pred) in
    let ss_res := sum (products residual residual) in
    let cy := centred y_true in
    let ss_tot := sum (products cy cy) in
    Some (if is_zero ss_tot
          then (if is_zero ss_res then #1 else #0)
          else #1 - ss_res / ss_tot).

Definition ols : Sklearn T := MkSklearn ols_fit ols_r2_score.

End LeastSquares.

(* ================================================================== *)
(** * Inputs used in the statements *)
(* ================================================================== *)

Set Warnings "-inexact-float".

(** [f(x) = -(x-5)**2 + 10] on doubles. *)
Definition concave_quadratic (x : float) : float :=
  (- ((x - 5) * (x - 5)) + 10)%float.

(** A concave quadratic whose maximum is the first interior point of the
    bracket [[0, 10]]. *)
Definition peaked_quadratic (x : float) : float :=
  (- ((x - 3.8196601125010514) * (x - 3.8196601125010514)))%float.

(** [a <= x1 <= x2 <= b], as the comparisons of the program's numbers. *)
Definition ordered_b (st : SearchState float) : bool :=
  PrimFloat.leb (gs_a st) (gs_x1 st) && PrimFloat.leb (gs_x1 st) (gs_x2 st)
  && PrimFloat.leb (gs_x2 st) (gs_b st).

Definition ordered (st : SearchState R) : Prop :=
  (gs_a st <= gs_x1 st <= gs_x2 st)%R /\ (gs_x2 st <= gs_b st)%R.

(** The bracket with its golden split: what the loop keeps in exact
    arithmetic. *)
Definition golden_split (st : SearchState R) : Prop :=
  (gs_a st <= gs_b st
   /\ gs_x1 st = gs_b st - phi * (gs_b st - gs_a st)
   /\ gs_x2 st = gs_a st + phi * (gs_b st - gs_a st))%R.

(** The double 2.0 as the kernel's specification of doubles writes it. *)
Definition SFtwo : spec_float := S754_finite false 4503599627370496 (-51).

(** [2^1023]: the doubles below it in magnitude are those whose doubling
    does not overflow. *)
Definition half_range : float := 0x1p1023%float.

(** The integers [lo, lo + 1, ..., lo + n - 1] as doubles. *)
Fixpoint float_range (n : nat) (lo : Z) : list float :=
  match n with
  | O => []
  | S n' => F64.of_Z lo :: float_range n' (lo + 1)
  end.

(** The default of the specification's step 5, taken literally:
    [max(100, 0.1 * sample_count)]. *)
Definition spec_default_demand {T} `{Scalar T} (sample_count : nat) : T :=
  py_max (s_of_Z 100) [s_mul (s_lit 1 10) (s_of_Z (Z.of_nat sample_count))].

(** [int(n * 0.1)] is [n // 10] for [n = lo, ..., lo + count - 1], checked
    by evaluation on doubles. *)
Fixpoint tenth_is_exact (count : nat) (lo : Z) : bool :=
  match count with
  | O => true
  | S count' =>
      match F64.trunc (F64.of_Z lo * s_lit 1 10)%float with
      | Some k => (k =? lo / 10)%Z
      | None => false
      end && tenth_is_exact count' (lo + 1)
  end.

(** The integers [lo, ..., lo + count - 1] convert to finite doubles above
    zero, checked by evaluation. *)
Fixpoint positive_finite (count : nat) (lo : Z) : bool :=
  match count with
  | O => true
  | S count' =>
      (0 <? F64.of_Z lo)%float && (F64.of_Z lo <? infinity)%float
      && positive_finite count' (lo + 1)
  end.

(** [func] rises strictly up to [peak] and falls strictly after it on
    [[a, b]]: the unimodality the search assumes of the profit function. *)
Definition unimodal_on (func : R -> R) (a b peak : R) : Prop :=
  (a <= peak <= b
   /\ (forall x y, a <= x -> x < y -> y <= peak -> func x < func y)
   /\ (forall x y, peak <= x -> x < y -> y <= b -> func y < func x))%R.

(** What [n] passes of the loop started on [[a0, b0]] keep in exact
    arithmetic: the golden split, the cached values, a bracket inside the
    first one, and a width of [phi^n] times the first width. *)
Definition narrowed (func : R -> R) (a0 b0 : R) (n : nat)
    (st : SearchState R) : Prop :=
  golden_split st /\ cache_correct func st
  /\ (gs_b st - gs_a st = phi ^ n * (b0 - a0))%R
  /\ (a0 <= gs_a st)%R /\ (gs_b st <= b0)%R.

(* ================================================================== *)
(** * Golden-section search: termination and the iteration cap *)
(* ================================================================== *)

Section GoldenSectionFacts.

Context {T : Type} `{Scalar T}.
Implicit Types (func : T -> T) (st : SearchState T) (tol : T).

Lemma loop_body_iteration func st :
  gs_iteration (loop_body func st) = (gs_iteration st + 1)%Z.
Proof. unfold loop_body. destruct (s_ltb _ _); reflexivity. Qed.

Lemma loop_guard_iteration tol st :
  loop_guard tol st = true -> (gs_iteration st < 100)%Z.
Proof.
  unfold loop_guard. intros G. apply andb_prop in G as [_ G].
  now apply Z.ltb_lt.
Qed.

(** Fuel covering the distance of the counter to 100 is never used up, and
    the counter stays within 100 if it starts there. *)
Lemma while_loop_enough fuel : forall func tol st,
  (100 - gs_iteration st <= Z.of_nat fuel)%Z ->
  exists st', while_loop fuel func tol st = Some st'
              /\ loop_guard tol st' = false
              /\ (gs_iteration st <= gs_iteration st')%Z
              /\ ((gs_iteration st <= 100)%Z -> (gs_iteration st' <= 100)%Z).
Proof.
  induction fuel as [|fuel IH]; intros func tol st Hfuel; simpl.
  - destruct (loop_guard tol st) eqn:G.
    + apply loop_guard_iteration in G. lia.
    + exists st. repeat split; auto; lia.
  - destruct (loop_guard tol st) eqn:G.
    + pose proof (loop_guard_iteration _ _ G) as Hlt.
      destruct (IH func tol (loop_body func st)) as (st' & E & G' & Hle & Hcap).
      { rewrite loop_body_iteration. lia. }
      rewrite loop_body_iteration in Hle, Hcap.
      exists st'. repeat split; auto; lia.
    + exists st. repeat split; auto; lia.
Qed.

(** Once the loop has a result, more fuel gives the same one. *)
Lemma while_loop_more_fuel fuel : forall fuel' func tol st st',
  while_loop fuel func tol st = Some st' ->
  (fuel <= fuel')%nat ->
  while_loop fuel' func tol st = Some st'.
Proof.
  induction fuel as [|fuel IH]; intros fuel' func tol st st' E Hle;
    simpl in E; destruct (loop_guard tol st) eqn:G; try discriminate.
  - destruct fuel'; simpl; rewrite G; exact E.
  - destruct fuel' as [|fuel']; [lia|]. simpl. rewrite G.
    apply IH with (1 := E). lia.
  - destruct fuel'; simpl; rewrite G; exact E.
Qed.

Lemma golden_section_search_fuel_irrelevant fuel func a b tol :
  (100 <= fuel)%nat ->
  golden_section_search_fuel fuel func a b tol
  = golden_section_search func a b tol.
Proof.
  intros Hle. unfold golden_section_search, golden_section_search_fuel.
  destruct (while_loop_enough 100 func tol (initial_state func a b))
    as (st' & E & _); [simpl; lia|].
  rewrite E, (while_loop_more_fuel _ _ _ E Hle). reflexivity.
Qed.

(** The states [state_after] reaches keep the cached values right. *)
Lemma loop_body_cache func st :
  cache_correct func st -> cache_correct func (loop_body func st).
Proof.
  unfold cache_correct, loop_body. intros [E1 E2].
  destruct (s_ltb _ _); simpl; auto.
Qed.

Lemma state_after_cache n : forall func tol st st',
  cache_correct func st ->
  state_after n func tol st = Some st' ->
  cache_correct func st'.
Proof.
  induction n as [|n IH]; intros func tol st st' C E; simpl in E.
  - now inversion E; subst.
  - destruct (loop_guard tol st); [|discriminate].
    eapply IH; [|exact E]. now apply loop_body_cache.
Qed.

End GoldenSectionFacts.

(** C2. For every function, bracket and tolerance the search returns, and
    the iteration count it returns is at most 100; the count does not come
    from the fuel of the model, which may be any number from 100 on. *)
Theorem iteration_cap {T : Type} `{Scalar T} (func : T -> T) (a b tol : T) :
  exists optimal_x maximum_value iteration,
    golden_section_search func a b tol
      = Some (optimal_x, maximum_value, iteration)
    /\ (0 <= iteration <= 100)%Z
    /\ forall fuel, (100 <= fuel)%nat ->
         golden_section_search_fuel fuel func a b tol
           = Some (optimal_x, maximum_value, iteration).
Proof.
  destruct (while_loop_enough 100 func tol (initial_state func a b))
    as (st' & E & _ & Hlo & Hhi); [simpl; lia|].
  simpl in Hlo, Hhi.
  exists (s_div (s_add (gs_a st') (gs_b st')) (s_of_Z 2)),
         (func (s_div (s_add (gs_a st') (gs_b st')) (s_of_Z 2))),
         (gs_iteration st').
  assert (G : golden_section_search func a b tol
              = Some (search_result func st')).
  { unfold golden_section_search, golden_section_search_fuel.
    now rewrite E. }
  split; [exact G|]. split; [lia|].
  intros fuel Hfuel.
  now rewrite golden_section_search_fuel_irrelevant.
Qed.

(** With tolerance [1e-9] on the bracket [[1e9, 1e9 + 1e6]] the doubles
    are spaced wider than the tolerance: the search stops at the cap, with
    the bracket still wider than the tolerance. *)
Example iteration_cap_reached :
  exists optimal_x maximum_value,
    golden_section_search concave_quadratic 1e9%float 1001000000%float
      (s_lit 1 1000000000)
    = Some (optimal_x, maximum_value, 100%Z).
Proof. vm_compute. eauto. Qed.

(* ================================================================== *)
(** * Facts about the two arithmetics *)
(* ================================================================== *)

Module ExactFacts.

Lemma ltb_true (x y : R) : Exact.ltb x y = true <-> (x < y)%R.
Proof.
  unfold Exact.ltb. destruct (Rlt_dec x y); split; intros; try easy.
Qed.

Lemma ltb_false (x y : R) : Exact.ltb x y = false <-> (y <= x)%R.
Proof.
  unfold Exact.ltb. destruct (Rlt_dec x y); split; intros; try easy; lra.
Qed.

Lemma sqrt5_bounds : (2 < sqrt 5 < 3)%R.
Proof.
  split.
  - replace 2%R with (sqrt 4).
    + apply sqrt_lt_1; lra.
    + replace 4%R with (2 * 2)%R by lra. apply sqrt_square. lra.
  - replace 3%R with (sqrt 9).
    + apply sqrt_lt_1; lra.
    + replace 9%R with (3 * 3)%R by lra. apply sqrt_square. lra.
Qed.

Lemma phi_value : @phi R _ = ((sqrt 5 - 1) / 2)%R.
Proof. reflexivity. Qed.

Lemma phi_bounds : (1 / 2 < @phi R _ < 1)%R.
Proof. rewrite phi_value. pose proof sqrt5_bounds. lra. Qed.

(** The identity that lets one interior point be carried over. *)
Lemma phi_square : (@phi R _ * @phi R _ = 1 - @phi R _)%R.
Proof.
  rewrite phi_value.
  assert (S5 : (sqrt 5 * sqrt 5 = 5)%R) by (apply sqrt_sqrt; lra).
  field_simplify. rewrite <- Rsqr_pow2. unfold Rsqr. rewrite S5. lra.
Qed.

End ExactFacts.

Module F64Facts.

Lemma SFcompare_refl (x : spec_float) :
  x <> S754_nan -> SFcompare x x = Some Eq.
Proof.
  destruct x as [s|s| |s m e]; intros N; try easy; simpl.
  - now destruct s.
  - rewrite Z.compare_refl, Pos.compare_cont_refl. now destruct s.
Qed.

Lemma is_nan_spec (x : float) :
  PrimFloat.is_nan x = true <-> Prim2SF x = S754_nan.
Proof.
  unfold PrimFloat.is_nan. rewrite FloatAxioms.eqb_spec. unfold SFeqb. split.
  - intros E. destruct (Prim2SF x) eqn:P; try reflexivity;
      rewrite SFcompare_refl in E by easy; discriminate.
  - intros ->. reflexivity.
Qed.

Lemma Prim2SF_zero : Prim2SF PrimFloat.zero = S754_zero false.
Proof. reflexivity. Qed.

(** [p - p] is [+0], or NaN when [p] is infinite or NaN. *)
Lemma sub_diag (p : float) :
  Prim2SF (p - p) = S754_zero false \/ Prim2SF (p - p) = S754_nan.
Proof.
  rewrite FloatAxioms.sub_spec. unfold SF64sub.
  destruct (Prim2SF p) as [s|s| |s m e]; simpl.
  - left. now destruct s.
  - right. now destruct s.
  - now right.
  - left. unfold shl_align. rewrite Z.min_id, !Z.sub_diag. reflexivity.
Qed.

Lemma abs_sub_diag (p : float) :
  Prim2SF (abs (p - p)) = S754_zero false
  \/ Prim2SF (abs (p - p)) = S754_nan.
Proof.
  rewrite FloatAxioms.abs_spec. destruct (sub_diag p) as [-> | ->]; auto.
Qed.

(** A comparison with a zero-width bracket is one with zero. *)
Lemma ltb_abs_sub_diag (tol p : float) :
  (tol <? 0)%float = false -> (tol <? abs (p - p))%float = false.
Proof.
  rewrite !FloatAxioms.ltb_spec. intros E.
  destruct (abs_sub_diag p) as [-> | ->].
  - exact E.
  - unfold SFltb. now destruct (Prim2SF tol).
Qed.


Lemma nan_sub_nan (x : float) :
  PrimFloat.is_nan x = true -> PrimFloat.is_nan (x - x) = true.
Proof.
  rewrite !is_nan_spec, FloatAxioms.sub_spec. now intros ->.
Qed.

End F64Facts.

(** ** The midpoint of a zero-width bracket *)

Module Doubling.

Local Open Scope Z_scope.
Local Unset Implicit Arguments.

Lemma digits2_pos_lower (m : positive) :
  2 ^ (Zpos (digits2_pos m) - 1) <= Zpos m.
Proof.
  induction m as [m IH|m IH|]; simpl digits2_pos;
    rewrite ?Pos2Z.inj_succ;
    try (replace (Z.succ (Z.pos (digits2_pos m)) - 1)
           with (Z.succ (Z.pos (digits2_pos m) - 1)) by lia;
         rewrite Z.pow_succ_r by lia; lia).
  simpl. lia.
Qed.

(** A valid finite double is normal (53 digits) or subnormal (fewer digits,
    least exponent). *)
Lemma bounded_inv (m : positive) (e : Z) :
  SpecFloat.bounded prec emax m e = true ->
  e <= 971 /\
  ((Zpos (digits2_pos m) = 53 /\ -1074 <= e)
   \/ (Zpos (digits2_pos m) < 53 /\ e = -1074)).
Proof.
  unfold SpecFloat.bounded, canonical_mantissa, fexp, emin, prec, emax.
  intros B. apply andb_prop in B as [C L].
  apply Z.eqb_eq in C. apply Z.leb_le in L.
  change IntDef.Z.max with Z.max in C. lia.
Qed.

Lemma fexp_value (k : Z) : fexp prec emax k = Z.max (k - 53) (-1074).
Proof. reflexivity. Qed.

(** Rounding a mantissa that needs no shift. *)
Lemma round_canonical (s : bool) (m : positive) (e : Z) :
  fexp prec emax (Zpos (digits2_pos m) + e) = e ->
  binary_round_aux prec emax s (Zpos m) e loc_Exact
  = if e <=? 971 then S754_finite s m e else S754_infinity s.
Proof.
  intros C. unfold binary_round_aux, shr_fexp.
  change (Zdigits2 (Z.pos m)) with (Zpos (digits2_pos m)).
  rewrite C, Z.sub_diag.
  change (shr (shr_record_of_loc (Z.pos m) loc_Exact) e 0)
    with (Build_shr_record (Zpos m) false false, e).
  cbv beta iota zeta.
  change (round_nearest_even _ _) with (Zpos m).
  change (Zdigits2 (Z.pos m)) with (Zpos (digits2_pos m)).
  rewrite C, Z.sub_diag. reflexivity.
Qed.

(** Rounding an even mantissa that needs a shift by one. *)
Lemma round_even (s : bool) (m : positive) (e : Z) :
  fexp prec emax (Zpos (digits2_pos m~0) + e) = e + 1 ->
  fexp prec emax (Zpos (digits2_pos m) + (e + 1)) = e + 1 ->
  binary_round_aux prec emax s (Zpos m~0) e loc_Exact
  = if e + 1 <=? 971 then S754_finite s m (e + 1) else S754_infinity s.
Proof.
  intros C1 C2. unfold binary_round_aux, shr_fexp.
  change (Zdigits2 (Z.pos m~0)) with (Zpos (digits2_pos m~0)).
  rewrite C1. replace (e + 1 - e) with 1 by lia.
  change (shr (shr_record_of_loc (Z.pos m~0) loc_Exact) e 1)
    with (Build_shr_record (Zpos m) false false, e + 1).
  cbv beta iota zeta.
  change (round_nearest_even _ _) with (Zpos m).
  change (Zdigits2 (Z.pos m)) with (Zpos (digits2_pos m)).
  rewrite C2, Z.sub_diag. reflexivity.
Qed.

Lemma div_eucl_shift (m : positive) (k : Z) :
  0 <= k ->
  Z.div_eucl (Z.shiftl (Zpos m) (k + 52)) 4503599627370496
  = (Z.shiftl (Zpos m) k, 0).
Proof.
  intros Hk.
  assert (E : Z.shiftl (Zpos m) (k + 52)
              = Z.shiftl (Zpos m) k * 4503599627370496).
  { rewrite !Z.shiftl_mul_pow2 by lia. rewrite Z.pow_add_r by lia.
    change (2 ^ 52) with 4503599627370496. ring. }
  rewrite E.
  pose proof (Z.div_eucl_eq (Z.shiftl (Zpos m) k * 4503599627370496)
                4503599627370496 ltac:(lia)) as Q.
  pose proof (Z.mod_pos_bound (Z.shiftl (Zpos m) k * 4503599627370496)
                4503599627370496 ltac:(lia)) as B.
  unfold Z.modulo in B.
  destruct (Z.div_eucl _ _) as [q r]. f_equal; nia.
Qed.

(** The quotient by two, before rounding, when the dividend is shifted by
    [k + 52] places. *)
Lemma div_core_two (m : positive) (e k : Z) :
  0 <= k ->
  Z.min (fexp prec emax (Zpos (digits2_pos m) + e - 2)) (e + 51)
    = e - 1 - k ->
  SFdiv_core_binary prec emax (Zpos m) e 4503599627370496 (-51)
  = (Z.shiftl (Zpos m) k, e - 1 - k, loc_Exact).
Proof.
  intros Hk E. unfold SFdiv_core_binary.
  change (Zdigits2 (Z.pos m)) with (Zpos (digits2_pos m)).
  change (Zdigits2 4503599627370496) with 53.
  replace (Z.pos (digits2_pos m) + e - (53 + -51))
    with (Z.pos (digits2_pos m) + e - 2) by lia.
  replace (e - -51) with (e + 51) by lia.
  change IntDef.Z.min with Z.min. rewrite E.
  replace (e + 51 - (e - 1 - k)) with (k + 52) by lia.
  cbv zeta.
  destruct (k + 52) as [|q|q] eqn:K; try lia.
  rewrite <- K.
  change IntDef.Z.div_eucl with Z.div_eucl.
  rewrite div_eucl_shift by exact Hk. reflexivity.
Qed.

Lemma SFdiv_two (s : bool) (m : positive) (e : Z) :
  SFdiv prec emax (S754_finite s m e) SFtwo
  = let '(mz, ez, lz) :=
      SFdiv_core_binary prec emax (Zpos m) e 4503599627370496 (-51) in
    binary_round_aux prec emax s mz ez lz.
Proof. unfold SFdiv, SFtwo. now rewrite xorb_false_r. Qed.

(** Halving a normal number above the least exponent is exact. *)
Lemma half_normal (s : bool) (m : positive) (e : Z) :
  Zpos (digits2_pos m) = 53 -> -1073 <= e <= 971 ->
  SFdiv prec emax (S754_finite s m e) SFtwo = S754_finite s m (e - 1).
Proof.
  intros D He. rewrite SFdiv_two.
  destruct (Z.eq_dec e (-1073)) as [-> | N].
  - rewrite (div_core_two m (-1073) 0); [|lia|rewrite fexp_value, D; lia].
    cbv beta iota zeta. rewrite Z.shiftl_0_r.
    rewrite round_canonical; [reflexivity|rewrite fexp_value, D; lia].
  - rewrite (div_core_two m e 1); [|lia|rewrite fexp_value, D; lia].
    cbv beta iota zeta. change (Z.shiftl (Z.pos m) 1) with (Zpos m~0).
    rewrite round_even.
    + replace (e - 1 - 1 + 1) with (e - 1) by lia.
      destruct (e - 1 <=? 971) eqn:L; [reflexivity|].
      apply Z.leb_gt in L. lia.
    + rewrite fexp_value. simpl digits2_pos. rewrite Pos2Z.inj_succ, D. lia.
    + rewrite fexp_value, D. lia.
Qed.

(** Halving an even subnormal mantissa is exact. *)
Lemma half_subnormal (s : bool) (m : positive) :
  Zpos (digits2_pos m) < 53 ->
  SFdiv prec emax (S754_finite s m~0 (-1074)) SFtwo
  = S754_finite s m (-1074).
Proof.
  intros D. rewrite SFdiv_two.
  assert (K : SFdiv_core_binary prec emax (Zpos m~0) (-1074)
                4503599627370496 (-51)
              = (Zpos m, -1074, loc_Exact)).
  { unfold SFdiv_core_binary.
    change (Zdigits2 (Z.pos m~0)) with (Zpos (digits2_pos m~0)).
    change (Zdigits2 4503599627370496) with 53.
    rewrite fexp_value. simpl digits2_pos. rewrite Pos2Z.inj_succ.
    change IntDef.Z.min with Z.min.
    replace (Z.min _ _) with (-1074) by lia.
    change (-1074 - -51 - -1074) with 51.
    cbv beta iota zeta.
    assert (S : Z.shiftl (Z.pos m~0) 51 = Z.shiftl (Zpos m) (0 + 52))
      by reflexivity.
    rewrite S. change IntDef.Z.div_eucl with Z.div_eucl.
    rewrite div_eucl_shift by lia. reflexivity. }
  rewrite K. cbv beta iota zeta.
  rewrite round_canonical; [reflexivity|rewrite fexp_value; lia].
Qed.

(** Halving the double of a valid finite number gives it back, unless the
    doubling overflowed. *)
Lemma double_half (s : bool) (m : positive) (e : Z) :
  SpecFloat.bounded prec emax m e = true ->
  e + 1 <= 971 ->
  SFdiv prec emax
    (SFadd prec emax (S754_finite s m e) (S754_finite s m e)) SFtwo
  = S754_finite s m e.
Proof.
  intros B Hov. apply bounded_inv in B as (He & B).
  assert (A : SFadd prec emax (S754_finite s m e) (S754_finite s m e)
              = binary_round prec emax s (m~0) e).
  { unfold SFadd. rewrite Z.min_id. unfold shl_align. rewrite Z.sub_diag.
    cbv beta iota zeta. change (fst (m, e)) with m.
    destruct s; simpl cond_Zopp; simpl Z.add; rewrite ?Pos.add_diag;
      reflexivity. }
  rewrite A. unfold binary_round. rewrite fexp_value.
  simpl digits2_pos. rewrite Pos2Z.inj_succ. unfold shl_align.
  destruct B as [[D Hlo] | [D ->]].
  - replace (Z.max (Z.succ (Z.pos (digits2_pos m)) + e - 53) (-1074) - e)
      with 1 by lia.
    cbv beta iota zeta. rewrite round_even.
    + destruct (e + 1 <=? 971) eqn:L; [|apply Z.leb_gt in L; lia].
      rewrite half_normal by (auto; lia). f_equal. lia.
    + rewrite fexp_value. simpl digits2_pos. rewrite Pos2Z.inj_succ. lia.
    + rewrite fexp_value. lia.
  - replace (Z.max (Z.succ (Z.pos (digits2_pos m)) + -1074 - 53) (-1074)
             - -1074) with 0 by lia.
    cbv beta iota zeta. rewrite round_canonical.
    + change (-1074 <=? 971) with true. cbv iota.
      now apply half_subnormal.
    + rewrite fexp_value. simpl digits2_pos. rewrite Pos2Z.inj_succ. lia.
Qed.


(** The midpoint of [p] and [p] is [p] for every double below [2^1023] in
    magnitude. *)
Lemma midpoint_exact (p : float) :
  (abs p <? half_range)%float = true -> ((p + p) / 2)%float = p.
Proof.
  intros Hp. apply Prim2SF_inj.
  rewrite FloatAxioms.div_spec, FloatAxioms.add_spec.
  assert (T2 : Prim2SF 2 = SFtwo) by (vm_compute; reflexivity).
  rewrite T2.
  rewrite FloatAxioms.ltb_spec, FloatAxioms.abs_spec in Hp.
  assert (HR : Prim2SF half_range = S754_finite false 4503599627370496 971)
    by (vm_compute; reflexivity).
  rewrite HR in Hp.
  pose proof (Prim2SF_valid p) as V.
  destruct (Prim2SF p) as [s|s| |s m e].
  - now destruct s.
  - discriminate.
  - discriminate.
  - apply double_half; [exact V|].
    apply bounded_inv in V as (_ & V).
    unfold SFltb, SFabs, SFcompare in Hp.
    destruct (Z.compare_spec e 971) as [He | Hlt | Hgt].
    + exfalso. subst e.
      destruct V as [[D _] | [_ Habs]]; [|clear Hp; discriminate Habs].
      assert (L : 4503599627370496 <= Zpos m).
      { pose proof (digits2_pos_lower m) as L. rewrite D in L. exact L. }
      assert (CC : forall a b, PosDef.Pos.compare_cont Eq a b = Pos.compare a b)
        by reflexivity.
      rewrite CC in Hp.
      destruct (Pos.compare_spec m 4503599627370496) as [E | E | E];
        try discriminate Hp.
      clear Hp. apply Pos2Z.pos_lt_pos in E. clear - L E.
      apply (Z.lt_irrefl (Zpos m)). eapply Z.lt_le_trans; eassumption.
    + clear Hp V. apply Z.lt_succ_r. rewrite Z.add_1_r.
      now apply -> Z.succ_lt_mono.
    + discriminate Hp.
Qed.

End Doubling.

(** ** Signs of products *)

Module Signs.

Local Open Scope Z_scope.
Local Unset Implicit Arguments.

Lemma shr_1_nonneg (mrs : shr_record) :
  0 <= shr_m mrs -> 0 <= shr_m (shr_1 mrs).
Proof.
  destruct mrs as [m r s]. simpl shr_m. intros Hm. unfold shr_1.
  destruct m as [|[q|q|]|q]; simpl; lia.
Qed.

Lemma iter_shr_1_nonneg (n : positive) : forall mrs,
  0 <= shr_m mrs -> 0 <= shr_m (SpecFloat.iter_pos shr_1 n mrs).
Proof.
  induction n as [n IH|n IH|]; intros mrs Hm; simpl.
  - apply IH, IH. now apply shr_1_nonneg.
  - now apply IH, IH.
  - now apply shr_1_nonneg.
Qed.

Lemma shr_fexp_nonneg (m e : Z) (l : location) :
  0 <= m -> 0 <= shr_m (fst (shr_fexp prec emax m e l)).
Proof.
  intros Hm. unfold shr_fexp, shr.
  assert (H0 : 0 <= shr_m (shr_record_of_loc m l)).
  { destruct l as [|[ | | ]]; exact Hm. }
  destruct (_ - e); simpl fst; auto.
  now apply iter_shr_1_nonneg.
Qed.

Lemma round_nearest_even_nonneg (m : Z) (l : location) :
  0 <= m -> 0 <= round_nearest_even m l.
Proof.
  intros Hm. unfold round_nearest_even.
  destruct l as [|[ | | ]]; try destruct (Z.even m); lia.
Qed.

(** Rounding a non-negative mantissa never produces NaN, and keeps the
    sign. *)
Lemma binary_round_aux_sign (s : bool) (m e : Z) (l : location) :
  0 <= m ->
  match binary_round_aux prec emax s m e l with
  | S754_zero s' | S754_infinity s' | S754_finite s' _ _ => s' = s
  | S754_nan => False
  end.
Proof.
  intros Hm. unfold binary_round_aux.
  pose proof (shr_fexp_nonneg m e l Hm) as H1.
  destruct (shr_fexp prec emax m e l) as [mrs' e']. simpl fst in H1.
  pose proof (round_nearest_even_nonneg (shr_m mrs')
                (loc_of_shr_record mrs') H1) as H2.
  pose proof (shr_fexp_nonneg _ e' loc_Exact H2) as H3.
  destruct (shr_fexp prec emax _ e' loc_Exact) as [mrs'' e''].
  simpl fst in H3.
  destruct (shr_m mrs'') as [|q|q]; [reflexivity| |lia].
  now destruct (e'' <=? emax - prec).
Qed.

(** The product of a number that is not below zero and a finite number
    above zero is not below zero. *)
Lemma mul_nonneg (x m : float) :
  (x <? 0)%float = false -> PrimFloat.is_nan x = false ->
  (0 <? m)%float = true -> (m <? infinity)%float = true ->
  (0 <=? x * m)%float = true.
Proof.
  rewrite !FloatAxioms.ltb_spec, FloatAxioms.leb_spec, FloatAxioms.mul_spec.
  assert (N : PrimFloat.is_nan x = false -> Prim2SF x <> S754_nan).
  { intros E C. unfold PrimFloat.is_nan in E.
    rewrite FloatAxioms.eqb_spec, C in E. discriminate. }
  assert (Z0 : Prim2SF 0 = S754_zero false) by reflexivity.
  assert (I0 : Prim2SF infinity = S754_infinity false) by reflexivity.
  rewrite Z0, I0. clear Z0 I0.
  intros Hx Hn Hm Hf. apply N in Hn. clear N.
  destruct (Prim2SF m) as [sm|sm| |sm mm em]; try discriminate;
    try (destruct sm; discriminate).
  destruct sm; [discriminate|].
  destruct (Prim2SF x) as [sx|sx| |sx mx ex].
  - now destruct sx.
  - destruct sx; [discriminate|reflexivity].
  - now contradiction Hn.
  - destruct sx; [discriminate|].
    unfold SF64mul, SFmul.
    pose proof (binary_round_aux_sign (xorb false false)
                  (Zpos (mx * mm)) (ex + em) loc_Exact ltac:(lia)) as S.
    change (PosDef.Pos.mul mx mm) with (Pos.mul mx mm).
    destruct (binary_round_aux _ _ _ _ _ _) as [s'|s'| |s' m' e'];
      try contradiction; subst s'; reflexivity.
Qed.

Lemma abs_of_negative (c : float) :
  (c <? 0)%float = true ->
  (abs c <? 0)%float = false /\ PrimFloat.is_nan (abs c) = false.
Proof.
  unfold PrimFloat.is_nan.
  rewrite !FloatAxioms.ltb_spec, FloatAxioms.eqb_spec, FloatAxioms.abs_spec.
  assert (Z0 : Prim2SF 0 = S754_zero false) by reflexivity.
  rewrite Z0. clear Z0.
  destruct (Prim2SF c) as [s|s| |s m e]; try discriminate; intros H.
  - split; reflexivity.
  - split; [reflexivity|]. unfold SFeqb, SFabs, SFcompare.
    now rewrite Z.compare_refl, Pos.compare_cont_refl.
Qed.

End Signs.

(* ================================================================== *)
(** * Golden-section search: results *)
(* ================================================================== *)

(** C1. On [f(x) = -(x-5)**2 + 10], the bracket [[0, 10]] and the default
    tolerance the search returns, after 20 passes, a point within the
    tolerance of 5 and the value of [f] there, which is within the square of
    the tolerance of 10. *)
Theorem golden_section_quadratic :
  exists optimal_x maximum_value,
    golden_section_search concave_quadratic 0%float 10%float default_tol
      = Some (optimal_x, maximum_value, 20%Z)
    /\ F64.le (abs (optimal_x - 5)) default_tol
    /\ maximum_value = concave_quadratic optimal_x
    /\ F64.le (abs (maximum_value - 10)) (default_tol * default_tol).
Proof.
  exists 5.0001262530617172%float, 9.9999999840601639%float.
  repeat split; vm_compute; reflexivity.
Qed.

(** A zero-width bracket fails the guard at once, whatever [func] is. *)
Lemma degenerate_bracket_result {T : Type} `{Scalar T}
    (func : T -> T) (p tol : T) :
  s_ltb tol (s_abs (s_sub p p)) = false ->
  golden_section_search func p p tol
  = Some (s_div (s_add p p) (s_of_Z 2),
          func (s_div (s_add p p) (s_of_Z 2)), 0%Z).
Proof.
  intros G. unfold golden_section_search, golden_section_search_fuel.
  simpl. unfold loop_guard. simpl. rewrite G. reflexivity.
Qed.

(** C3, as stated, fails on doubles: for [p = 1e308] the midpoint
    [(p + p) / 2] overflows, and the search returns infinity, not [p]. *)
Lemma degenerate_bracket_overflow :
  golden_section_search concave_quadratic 1e308%float 1e308%float default_tol
    = Some (infinity, neg_infinity, 0%Z)
  /\ PrimFloat.eqb infinity 1e308 = false.
Proof. split; vm_compute; reflexivity. Qed.

(** C3, amended. For every [func] and every tolerance that is not negative,
    the search on the bracket [[p, p]] makes no pass and returns [p] and
    [func p]: on doubles for every [p] below [2^1023] in magnitude (the sum
    [p + p] of the midpoint does not overflow), in exact arithmetic for
    every [p]. *)
Theorem degenerate_bracket :
  (forall (func : float -> float) (p tol : float),
     (tol <? 0)%float = false ->
     (abs p <? half_range)%float = true ->
     golden_section_search func p p tol = Some (p, func p, 0%Z))
  /\
  (forall (func : R -> R) (p tol : R),
     (0 <= tol)%R ->
     golden_section_search func p p tol = Some (p, func p, 0%Z)).
Proof.
  split.
  - intros func p tol Htol Hp.
    rewrite degenerate_bracket_result.
    + simpl. change (F64.of_Z 2) with 2%float.
      now rewrite (Doubling.midpoint_exact p Hp).
    + simpl. now apply F64Facts.ltb_abs_sub_diag.
  - intros func p tol Htol.
    rewrite degenerate_bracket_result.
    + simpl. replace ((p + p) / 2)%R with p by lra. reflexivity.
    + simpl. apply ExactFacts.ltb_false.
      replace (p - p)%R with 0%R by lra. now rewrite Rabs_R0.
Qed.

Lemma degenerate_bracket_witness :
  golden_section_search concave_quadratic 7%float 7%float default_tol
  = Some (7%float, concave_quadratic 7%float, 0%Z).
Proof.
  apply (proj1 degenerate_bracket concave_quadratic 7%float default_tol);
    vm_compute; reflexivity.
Defined.

(* ================================================================== *)
(** * Golden-section search: the loop invariant *)
(* ================================================================== *)

(** C4, as stated, fails on doubles: on a concave quadratic over [[0, 10]]
    with tolerance [1e-15], the state at the start of pass 76 has
    [x1 > x2].  The carried-over point has drifted from the golden split of
    a bracket that is then three spacings wide. *)
Lemma ordering_lost_under_rounding :
  exists st,
    at_iteration_start peaked_quadratic 0%float 10%float
      (s_lit 1 1000000000000000) st
    /\ gs_iteration st = 75%Z
    /\ (gs_x2 st <? gs_x1 st)%float = true
    /\ ordered_b st = false.
Proof.
  eexists. split; [exists 75%nat; split|]; [vm_compute; reflexivity|..];
    repeat split; vm_compute; reflexivity.
Qed.

Section ExactInvariant.

Variable func : R -> R.
Local Open Scope R_scope.

Lemma golden_split_initial (a b : R) :
  a <= b -> golden_split (initial_state func a b).
Proof. intros Hab. repeat split; simpl; auto. Qed.

Lemma golden_split_body (st : SearchState R) :
  golden_split st -> golden_split (loop_body func st).
Proof.
  intros (Hab & E1 & E2).
  pose proof ExactFacts.phi_bounds as [Hlo Hhi].
  pose proof ExactFacts.phi_square as Hsq.
  assert (Hw : 0 <= phi * (gs_b st - gs_a st)).
  { apply Rmult_le_pos; lra. }
  assert (Hw1 : phi * (gs_b st - gs_a st) <= gs_b st - gs_a st).
  { rewrite <- (Rmult_1_l (gs_b st - gs_a st)) at 2.
    apply Rmult_le_compat_r; lra. }
  assert (Hpp : phi * (phi * (gs_b st - gs_a st))
                = gs_b st - gs_a st - phi * (gs_b st - gs_a st)).
  { rewrite <- Rmult_assoc, Hsq. ring. }
  unfold loop_body, golden_split.
  destruct (s_ltb (gs_f2 st) (gs_f1 st)); simpl; repeat split.
  - rewrite E2. lra.
  - rewrite E1, E2.
    replace (gs_a st + phi * (gs_b st - gs_a st) - gs_a st)
      with (phi * (gs_b st - gs_a st)) by ring.
    rewrite Hpp. ring.
  - rewrite E1. lra.
  - rewrite E1, E2.
    replace (gs_b st - (gs_b st - phi * (gs_b st - gs_a st)))
      with (phi * (gs_b st - gs_a st)) by ring.
    rewrite Hpp. ring.
Qed.

Lemma golden_split_after (tol : R) (n : nat) : forall st st',
  golden_split st ->
  state_after n func tol st = Some st' ->
  golden_split st'.
Proof.
  induction n as [|n IH]; intros st st' G E; simpl in E.
  - now inversion E; subst.
  - destruct (loop_guard tol st); [|discriminate].
    eapply IH; [|exact E]. now apply golden_split_body.
Qed.

Lemma golden_split_ordered (st : SearchState R) :
  golden_split st -> ordered st.
Proof.
  intros (Hab & E1 & E2).
  pose proof ExactFacts.phi_bounds as [Hlo Hhi].
  assert (Hw : 0 <= phi * (gs_b st - gs_a st)).
  { apply Rmult_le_pos; lra. }
  assert (Hw1 : phi * (gs_b st - gs_a st) <= gs_b st - gs_a st).
  { rewrite <- (Rmult_1_l (gs_b st - gs_a st)) at 2.
    apply Rmult_le_compat_r; lra. }
  assert (Hw2 : (gs_b st - gs_a st) / 2 <= phi * (gs_b st - gs_a st)).
  { unfold Rdiv. rewrite Rmult_comm. apply Rmult_le_compat_r; lra. }
  unfold ordered. rewrite E1, E2. lra.
Qed.

End ExactInvariant.

(** C4, amended. At the start of every pass of the loop, for every function,
    bracket and tolerance, the cached [f1] and [f2] are the values of the
    function at [x1] and [x2] (so one evaluation per pass suffices); and in
    exact arithmetic, for [a <= b], the points are ordered
    [a <= x1 <= x2 <= b].  Under the rounding of doubles the ordering is not
    kept. *)
Theorem loop_invariant :
  (forall (T : Type) (S : Scalar T) (func : T -> T) (a b tol : T)
          (st : SearchState T),
     at_iteration_start func a b tol st -> cache_correct func st)
  /\
  (forall (func : R -> R) (a b tol : R) (st : SearchState R),
     (a <= b)%R ->
     at_iteration_start func a b tol st -> ordered st).
Proof.
  split.
  - intros T S func a b tol st (n & E & _).
    eapply state_after_cache; [|exact E]. split; reflexivity.
  - intros func a b tol st Hab (n & E & _).
    apply golden_split_ordered.
    eapply golden_split_after; [|exact E].
    now apply golden_split_initial.
Qed.

Lemma loop_invariant_witness :
  cache_correct concave_quadratic
    (initial_state concave_quadratic 0%float 10%float)
  /\ ordered (initial_state (fun x : R => x) 0%R 10%R).
Proof.
  split.
  - apply (proj1 loop_invariant float _ concave_quadratic 0%float 10%float
             default_tol).
    exists 0%nat. split; vm_compute; reflexivity.
  - apply (proj2 loop_invariant (fun x : R => x) 0%R 10%R 1%R); [lra|].
    exists 0%nat. split; [reflexivity|].
    unfold loop_guard. simpl. rewrite andb_true_r.
    apply ExactFacts.ltb_true. rewrite Rabs_right; lra.
Defined.

(* ================================================================== *)
(** * The demand floor *)
(* ================================================================== *)

(** [max(0, v)] keeps [v] when it is above zero and is 0 otherwise. *)
Lemma talep_fonksiyonu_cases {T : Type} `{Scalar T} (f a_d b_d : T) :
  talep_fonksiyonu f a_d b_d
  = if s_ltb (s_of_Z 0) (s_sub a_d (s_mul b_d f))
    then s_sub a_d (s_mul b_d f) else s_of_Z 0.
Proof. reflexivity. Qed.



(* ================================================================== *)
(** * The estimator: failures *)
(* ================================================================== *)

Section EstimatorFailures.

Context {T : Type} `{Scalar T}.

(** C5, amended. For every library and every [max_theoretical_demand] the
    estimator returns [None] when either sequence is empty, when the two
    differ in length, and when no row of the frame is left after
    [dropna]; the only other inputs on which it returns [None] are those
    where a call inside the [try] raises: the first fit, the second fit,
    [int] of the default demand, or [r2_score]. *)
Theorem estimator_input_validation (sk : Sklearn T)
    (prices ratings : list T) (max_theoretical_demand : option T) :
  estimate_demand_parameters sk prices ratings max_theoretical_demand = None
  <->
  prices = [] \/ ratings = []
  \/ length prices <> length ratings
  \/ dropna (combine prices (map (fun r => s_mul r (s_of_Z 100)) ratings))
     = []
  \/ exists row rows,
       dropna (combine prices (map (fun r => s_mul r (s_of_Z 100)) ratings))
         = row :: rows
       /\ let X := map fst (row :: rows) in
          let y := map (fun d => s_sub (s_of_Z 1) d)
                     (demand_proportion row rows) in
          let second_fit model_with_intercept :=
            LinearRegression_fit sk
              (negb (s_ltb (s_abs (intercept_ model_with_intercept))
                       (s_lit 5 100))) X y in
          LinearRegression_fit sk true X y = None
          \/ (exists model_with_intercept,
                LinearRegression_fit sk true X y = Some model_with_intercept
                /\ second_fit model_with_intercept = None)
          \/ (max_theoretical_demand = None
              /\ default_max_theoretical_demand (length prices) = None)
          \/ (exists model_with_intercept model,
                LinearRegression_fit sk true X y = Some model_with_intercept
                /\ second_fit model_with_intercept = Some model
                /\ r2_score sk y (predict model X) = None).
Proof.
  unfold estimate_demand_parameters. split.
  - intros E.
    destruct prices as [|p0 ps]; [now left|].
    destruct ratings as [|r0 rs]; [right; now left|].
    cbn [is_empty orb] in E.
    destruct (Nat.eqb_spec (length (p0 :: ps)) (length (r0 :: rs)))
      as [L | L]; [|right; right; now left].
    cbn [negb] in E.
    destruct (dropna _) as [|row rows]; [right; right; right; now left|].
    right; right; right; right. exists row, rows. split; [reflexivity|].
    cbv zeta. unfold fit_demand_curve in E.
    destruct (LinearRegression_fit sk true _ _) as [mwi|] eqn:F1;
      [|now left].
    right.
    destruct (LinearRegression_fit sk (if s_ltb _ _ then false else true)
                _ _) as [mdl|] eqn:F2;
      [|left; exists mwi; split; [reflexivity | exact F2]].
    right.
    destruct max_theoretical_demand as [supplied|].
    + right. exists mwi, mdl. split; [reflexivity|]. split; [exact F2|].
      destruct (r2_score sk _ _); [discriminate | reflexivity].
    + destruct (default_max_theoretical_demand _) as [m|];
        [|left; now split].
      right. exists mwi, mdl. split; [reflexivity|]. split; [exact F2|].
      destruct (r2_score sk _ _); [discriminate | reflexivity].
  - intros [-> | [-> | [L | [D | (row & rows & D & Raised)]]]].
    + reflexivity.
    + now rewrite orb_true_r.
    + destruct (is_empty prices || is_empty ratings); [reflexivity|].
      apply Nat.eqb_neq in L. now rewrite L.
    + destruct (is_empty prices || is_empty ratings); [reflexivity|].
      destruct (negb _); [reflexivity|]. now rewrite D.
    + destruct (is_empty prices || is_empty ratings); [reflexivity|].
      destruct (negb _); [reflexivity|]. rewrite D.
      cbv zeta in Raised. unfold fit_demand_curve.
      destruct Raised
        as [F1 | [(mwi & F1 & F2) | [(-> & Dd) | (mwi & mdl & F1 & F2 & S)]]].
      * now rewrite F1.
      * rewrite F1. unfold negb in F2. now rewrite F2.
      * destruct (LinearRegression_fit sk true _ _); [|reflexivity].
        destruct (LinearRegression_fit sk _ _ _); [|reflexivity].
        now rewrite Dd.
      * rewrite F1. unfold negb in F2. rewrite F2.
        destruct max_theoretical_demand;
          [|destruct (default_max_theoretical_demand _); [|reflexivity]];
          now rewrite S.
Qed.

End EstimatorFailures.

Lemma estimator_input_validation_witness :
  estimate_demand_parameters ols [10%float; PrimFloat.nan]
    [PrimFloat.nan; 4%float] None = None.
Proof.
  apply estimator_input_validation.
  right; right; right; left. vm_compute. reflexivity.
Defined.

(** C5, as stated, fails: the listed situations are not the only ones in
    which the estimator returns [None].  Three prices with three zero
    ratings are non-empty, equally long and keep every row after
    [dropna]; the regression target is [1 - 0/0], a NaN, and the fit of
    the reference library, like scikit-learn's, raises on it inside the
    [try]. *)
Lemma validation_not_exhaustive :
  [10%float; 20%float; 30%float] <> []
  /\ [0%float; 0%float; 0%float] <> []
  /\ length [10%float; 20%float; 30%float]
     = length [0%float; 0%float; 0%float]
  /\ dropna (combine [10%float; 20%float; 30%float]
               (map (fun r => s_mul r (s_of_Z 100))
                  [0%float; 0%float; 0%float])) <> []
  /\ estimate_demand_parameters ols [10%float; 20%float; 30%float]
       [0%float; 0%float; 0%float] None = None.
Proof.
  split; [discriminate|]. split; [discriminate|]. split; [reflexivity|].
  split; [vm_compute; discriminate | vm_compute; reflexivity].
Qed.

Section MaxFacts.

Context {T : Type} `{Scalar T}.

(** Python's [max] returns one of the elements. *)
Lemma py_max_In (xs : list T) : forall x, In (py_max x xs) (x :: xs).
Proof.
  induction xs as [|v xs IH]; intros x.
  - now left.
  - change (py_max x (v :: xs))
      with (py_max (if s_ltb x v then v else x) xs).
    destruct (IH (if s_ltb x v then v else x)) as [E | E].
    + rewrite <- E. destruct (s_ltb x v); [right; now left | now left].
    + right. now right.
Qed.

Lemma dropna_In (row : T * T) (data : list (T * T)) :
  In row (dropna data) -> In row data.
Proof. unfold dropna. intros I. now apply filter_In in I. Qed.

End MaxFacts.

Module ZeroRatings.

Lemma scaled (r : float) :
  r = 0%float \/ r = (-0)%float ->
  s_mul r (s_of_Z 100) = 0%float \/ s_mul r (s_of_Z 100) = (-0)%float.
Proof. intros [-> | ->]; [left | right]; vm_compute; reflexivity. Qed.

(** Zero divided by zero: the regression target is NaN. *)
Lemma target_is_nan (r m : float) :
  r = 0%float \/ r = (-0)%float -> m = 0%float \/ m = (-0)%float ->
  s_isnan (s_sub (s_of_Z 1) (s_div r m)) = true.
Proof. intros [-> | ->] [-> | ->]; vm_compute; reflexivity. Qed.

Lemma frame_ratings (prices ratings : list float) (row : float * float) :
  (forall r, In r ratings -> r = 0%float \/ r = (-0)%float) ->
  In row (dropna (combine prices
                    (map (fun r => s_mul r (s_of_Z 100)) ratings))) ->
  snd row = 0%float \/ snd row = (-0)%float.
Proof.
  intros Hz I. apply dropna_In in I. destruct row as [p r'].
  apply in_combine_r in I. apply in_map_iff in I as (r & <- & Ir).
  apply scaled. now apply Hz.
Qed.

End ZeroRatings.

(** C10. On doubles, when every rating is exactly zero the estimator returns
    [None], whatever the prices and [max_theoretical_demand]: the maximum
    rating is zero, every demand proportion is [0/0], and a library whose
    [fit] raises on a NaN target (as scikit-learn's input validation does)
    raises inside the [try]. *)
Theorem zero_ratings_fail (sk : Sklearn float) (prices ratings : list float)
    (max_theoretical_demand : option float) :
  (forall fit_intercept X y,
     existsb s_isnan y = true ->
     LinearRegression_fit sk fit_intercept X y = None) ->
  prices <> [] ->
  length prices = length ratings ->
  (forall r, In r ratings -> r = 0%float \/ r = (-0)%float) ->
  estimate_demand_parameters sk prices ratings max_theoretical_demand = None.
Proof.
  intros Hfit _ _ Hz. unfold estimate_demand_parameters.
  destruct (is_empty prices || is_empty ratings); [reflexivity|].
  destruct (negb _); [reflexivity|].
  destruct (dropna _) as [|row rows] eqn:D; [reflexivity|].
  unfold fit_demand_curve. rewrite Hfit; [reflexivity|].
  unfold demand_proportion. simpl map. simpl existsb.
  rewrite ZeroRatings.target_is_nan; [reflexivity| |].
  - apply (ZeroRatings.frame_ratings prices ratings); [exact Hz|].
    rewrite D. now left.
  - assert (I : In (py_max (snd row) (map snd rows))
                   (map snd (row :: rows))) by apply py_max_In.
    apply in_map_iff in I as (row' & <- & I).
    apply (ZeroRatings.frame_ratings prices ratings); [exact Hz|].
    now rewrite D.
Qed.

(** The reference library raises on a NaN target. *)
Lemma ols_fit_rejects_nan (fit_intercept : bool) (X y : list float) :
  existsb s_isnan y = true -> ols_fit fit_intercept X y = None.
Proof.
  intros E. unfold ols_fit.
  assert (F : all_finite y = false).
  { apply existsb_exists in E as (x & I & N).
    destruct (all_finite y) eqn:A; [|reflexivity].
    unfold all_finite in A. rewrite forallb_forall in A.
    specialize (A x I). unfold is_finite in A.
    simpl in N, A. now rewrite (F64Facts.nan_sub_nan _ N) in A. }
  rewrite F. simpl. now rewrite !orb_true_r.
Qed.

Lemma zero_ratings_fail_witness :
  estimate_demand_parameters ols
    [10%float; 20%float; 30%float] [0%float; 0%float; 0%float] None = None.
Proof.
  apply zero_ratings_fail.
  - intros fi X y E. now apply ols_fit_rejects_nan.
  - discriminate.
  - reflexivity.
  - simpl. intros r [<- | [<- | [<- | []]]]; now left.
Defined.

(* ================================================================== *)
(** * The rating scale *)
(* ================================================================== *)

Section RatingScale.

Local Open Scope R_scope.

(** In exact arithmetic nothing is NaN: [dropna] keeps every row. *)
Lemma dropna_exact (data : list (R * R)) : dropna data = data.
Proof.
  induction data as [|row data IH]; [reflexivity|].
  change (dropna (row :: data)) with (row :: dropna data).
  now rewrite IH.
Qed.

Lemma ltb_scale (x y : R) :
  Exact.ltb (x * 100) (y * 100) = Exact.ltb x y.
Proof.
  destruct (Exact.ltb x y) eqn:E.
  - apply ExactFacts.ltb_true in E. apply ExactFacts.ltb_true. lra.
  - apply ExactFacts.ltb_false in E. apply ExactFacts.ltb_false. lra.
Qed.

(** The maximum of the scaled ratings is the scaled maximum. *)
Lemma py_max_scale (xs : list R) : forall x,
  py_max (x * 100) (map (fun r => r * 100) xs) = py_max x xs * 100.
Proof.
  induction xs as [|v xs IH]; intros x; [reflexivity|].
  change (py_max (x * 100) (map (fun r => r * 100) (v :: xs)))
    with (py_max (if Exact.ltb (x * 100) (v * 100) then v * 100 else x * 100)
            (map (fun r => r * 100) xs)).
  change (py_max x (v :: xs))
    with (py_max (if Exact.ltb x v then v else x) xs).
  rewrite ltb_scale, <- IH. now destruct (Exact.ltb x v).
Qed.

(** The factor cancels in the quotient; with a zero maximum both quotients
    are the same division by zero. *)
Lemma quotient_scale (r m : R) : r * 100 / (m * 100) = r / m.
Proof.
  destruct (Req_dec m 0) as [-> | Hm].
  - unfold Rdiv. rewrite Rmult_0_l, Rinv_0. ring.
  - field. exact Hm.
Qed.

Lemma demand_proportion_scale (row : R * R) (rows : list (R * R)) :
  demand_proportion (fst row, snd row * 100)
    (map (fun r => (fst r, snd r * 100)) rows)
  = demand_proportion row rows.
Proof.
  unfold demand_proportion. simpl.
  rewrite map_map. simpl.
  rewrite <- (map_map snd (fun r => r * 100)), py_max_scale.
  rewrite quotient_scale. f_equal.
  rewrite map_map. apply map_ext. intros r. simpl. apply quotient_scale.
Qed.

Lemma combine_scale (prices ratings : list R) :
  combine prices (map (fun r => r * 100) ratings)
  = map (fun r => (fst r, snd r * 100)) (combine prices ratings).
Proof.
  revert ratings. induction prices as [|p prices IH];
    intros [|r ratings]; simpl; try reflexivity.
  now rewrite IH.
Qed.

Lemma fit_demand_curve_scale (sk : Sklearn R) (n : nat) (row : R * R)
    (rows : list (R * R)) (mtd : option R) :
  fit_demand_curve sk n (fst row, snd row * 100)
    (map (fun r => (fst r, snd r * 100)) rows) mtd
  = fit_demand_curve sk n row rows mtd.
Proof.
  unfold fit_demand_curve. rewrite demand_proportion_scale.
  simpl map. rewrite map_map. simpl. reflexivity.
Qed.

End RatingScale.

(** C9. In exact arithmetic the scaling of the ratings by 100 changes
    nothing: the demand proportions of the scaled frame are those of the
    unscaled one, and the estimator returns what it returns with the scaling
    step removed, for every library, every input and every
    [max_theoretical_demand] (so the fitted model, [b_d] and the score are
    the same). *)
Theorem rating_scale_neutral :
  (forall (row : R * R) (rows : list (R * R)),
     demand_proportion (fst row, (snd row * 100)%R)
       (map (fun r => (fst r, (snd r * 100)%R)) rows)
     = demand_proportion row rows)
  /\
  (forall (sk : Sklearn R) (prices ratings : list R)
          (max_theoretical_demand : option R),
     estimate_demand_parameters sk prices ratings max_theoretical_demand
     = estimate_demand_parameters_unscaled sk prices ratings
         max_theoretical_demand).
Proof.
  split; [exact demand_proportion_scale|].
  intros sk prices ratings mtd.
  unfold estimate_demand_parameters, estimate_demand_parameters_unscaled.
  destruct (is_empty prices || is_empty ratings); [reflexivity|].
  destruct (negb _); [reflexivity|].
  rewrite !dropna_exact. simpl s_mul. simpl s_of_Z.
  rewrite combine_scale.
  destruct (combine prices ratings) as [|row rows]; [reflexivity|].
  simpl map. apply fit_demand_curve_scale.
Qed.

(** On doubles the factor does not cancel exactly: with ratings 3.0 and 3.1
    the scaled and the unscaled demand proportions differ in the last
    place.  This is why C9 is a statement of exact arithmetic. *)
Example rating_scale_rounds :
  exists scaled unscaled,
    demand_proportion (10%float, (3 * 100)%float)
      [(20%float, (3.1 * 100)%float)] = [scaled; 1%float]
    /\ demand_proportion (10%float, 3%float) [(20%float, 3.1%float)]
       = [unscaled; 1%float]
    /\ (unscaled <? scaled)%float = true.
Proof.
  exists 0.967741935483871%float, 0.9677419354838709%float.
  repeat split; vm_compute; reflexivity.
Qed.

(* ================================================================== *)
(** * The estimator: the returned parameters *)
(* ================================================================== *)

Section EstimatorSuccess.

Context {T : Type} `{Scalar T}.

(** What a returned record holds: [a_d] is the supplied or defaulted
    [max_theoretical_demand], and [b_d] is the coefficient of the returned
    model times [a_d], with the coefficient's sign dropped when it is
    below zero. *)
Lemma estimate_success (sk : Sklearn T) (prices ratings : list T)
    (max_theoretical_demand : option T) (p : DemandParameters T) :
  estimate_demand_parameters sk prices ratings max_theoretical_demand
    = Some p ->
  exists m,
    match max_theoretical_demand with
    | Some supplied => m = supplied
    | None => default_max_theoretical_demand (length prices) = Some m
    end
    /\ a_d p = m
    /\ b_d p = (if s_ltb (coef_ (model p)) (s_of_Z 0)
                then s_mul (s_abs (coef_ (model p))) m
                else s_mul (coef_ (model p)) m)
    /\ intercept p = intercept_ (model p).
Proof.
  unfold estimate_demand_parameters.
  destruct (is_empty prices || is_empty ratings); [discriminate|].
  destruct (negb _); [discriminate|].
  destruct (dropna _) as [|row rows]; [discriminate|].
  unfold fit_demand_curve.
  destruct (LinearRegression_fit sk true _ _) as [mwi|]; [|discriminate].
  destruct (LinearRegression_fit sk _ _ _) as [mdl|]; [|discriminate].
  destruct max_theoretical_demand as [supplied|].
  - destruct (r2_score sk _ _); [|discriminate].
    intros E. inversion E; subst; clear E. exists supplied. simpl. auto.
  - destruct (default_max_theoretical_demand _) as [m|]; [|discriminate].
    destruct (r2_score sk _ _); [|discriminate].
    intros E. inversion E; subst; clear E. exists m. simpl. auto.
Qed.

End EstimatorSuccess.

(** [int(n * 0.1)] in exact arithmetic. *)
Lemma exact_default_demand (n : nat) :
  default_max_theoretical_demand (T := R) n
  = Some (IZR (Z.max 100 (Z.of_nat n / 10))).
Proof.
  unfold default_max_theoretical_demand, s_lit. simpl. unfold Exact.trunc.
  set (z := Z.of_nat n).
  assert (Hz : (0 <= z)%Z) by (subst z; lia).
  assert (Hx : (0 <= IZR z * (1 / 10))%R).
  { apply IZR_le in Hz. lra. }
  destruct (Rle_dec 0 (IZR z * (1 / 10))) as [_|N]; [|contradiction].
  rewrite <- (Int_part_spec (IZR z * (1 / 10)) (z / 10)); [reflexivity|].
  pose proof (Z.div_mod z 10 ltac:(lia)) as D.
  pose proof (Z.mod_pos_bound z 10 ltac:(lia)) as [M0 M1].
  assert (E : IZR z = (10 * IZR (z / 10) + IZR (z mod 10))%R).
  { rewrite D at 1. now rewrite plus_IZR, mult_IZR. }
  apply IZR_le in M0. apply IZR_lt in M1. lra.
Qed.

(** [tenth_is_exact] checks what it says. *)
Lemma tenth_is_exact_spec (count : nat) : forall lo z,
  tenth_is_exact count lo = true ->
  (lo <= z < lo + Z.of_nat count)%Z ->
  F64.trunc (F64.of_Z z * s_lit 1 10)%float = Some (z / 10)%Z.
Proof.
  induction count as [|count IH]; intros lo z C R; [lia|].
  simpl in C. apply andb_prop in C as [C0 C].
  destruct (Z.eq_dec z lo) as [-> | N].
  - destruct (F64.trunc _) as [k|]; [|discriminate].
    apply Z.eqb_eq in C0. now subst k.
  - apply (IH (lo + 1)%Z); [exact C | lia].
Qed.

Lemma tenth_is_exact_100000 : tenth_is_exact (Z.to_nat 100001) 0 = true.
Proof. vm_compute. reflexivity. Qed.

(** On doubles, for up to 100000 samples. *)
Lemma float_default_demand (n : nat) :
  (Z.of_nat n <= 100000)%Z ->
  default_max_theoretical_demand (T := float) n
  = Some (F64.of_Z (Z.max 100 (Z.of_nat n / 10))).
Proof.
  intros Hn. unfold default_max_theoretical_demand.
  change (s_trunc (s_mul (s_of_Z (Z.of_nat n)) (s_lit 1 10)))
    with (F64.trunc (F64.of_Z (Z.of_nat n) * s_lit 1 10)%float).
  rewrite (@tenth_is_exact_spec _ 0%Z (Z.of_nat n) tenth_is_exact_100000);
    [reflexivity | lia].
Qed.

(** C7, as stated, fails: with 1005 samples the default is
    [max(100, int(100.5)) = 100], not [max(100, 0.1 * 1005) = 100.5]. *)
Lemma default_demand_truncates :
  exists p,
    estimate_demand_parameters ols (float_range 1005 1) (repeat 4%float 1005)
      None = Some p
    /\ a_d p = 100%float
    /\ spec_default_demand 1005 = 100.5%float
    /\ (a_d p <? spec_default_demand 1005)%float = true.
Proof.
  eexists. split; [vm_compute; reflexivity|].
  repeat split; vm_compute; reflexivity.
Qed.

(** C7, amended. When the estimator succeeds without a supplied
    [max_theoretical_demand], [a_d] is [max(100, n // 10)] for [n] price
    samples, the integer part of [0.1 * n] taking the place of [0.1 * n]:
    on doubles for up to 100000 samples, in exact arithmetic for any
    number. *)
Theorem default_demand :
  (forall (sk : Sklearn float) (prices ratings : list float)
          (p : DemandParameters float),
     (Z.of_nat (length prices) <= 100000)%Z ->
     estimate_demand_parameters sk prices ratings None = Some p ->
     a_d p = F64.of_Z (Z.max 100 (Z.of_nat (length prices) / 10)))
  /\
  (forall (sk : Sklearn R) (prices ratings : list R)
          (p : DemandParameters R),
     estimate_demand_parameters sk prices ratings None = Some p ->
     a_d p = IZR (Z.max 100 (Z.of_nat (length prices) / 10))).
Proof.
  split.
  - intros sk prices ratings p Hn E.
    apply estimate_success in E as (m & D & A & _).
    rewrite float_default_demand in D by exact Hn.
    inversion D. congruence.
  - intros sk prices ratings p E.
    apply estimate_success in E as (m & D & A & _).
    rewrite exact_default_demand in D.
    inversion D. congruence.
Qed.

Lemma default_demand_witness :
  match estimate_demand_parameters ols (float_range 1005 1)
          (repeat 4%float 1005) None with
  | Some p => a_d p = F64.of_Z (Z.max 100 (1005 / 10))
  | None => False
  end.
Proof.
  destruct (estimate_demand_parameters ols _ _ None) as [p|] eqn:E.
  - apply (proj1 default_demand ols (float_range 1005 1)
             (repeat 4%float 1005) p); [vm_compute; discriminate | exact E].
  - vm_compute in E. discriminate.
Defined.

(** C6, as stated, fails when the caller supplies the demand: with
    [max_theoretical_demand = 0] (the web form's default) the estimator
    returns [a_d = 0], and with a negative one it returns a negative
    [b_d]. *)
Lemma supplied_demand_not_positive :
  (exists p,
     estimate_demand_parameters ols (float_range 5 1)
       (map F64.of_Z [5; 4; 3; 2; 1]%Z) (Some 0%float) = Some p
     /\ (0 <? a_d p)%float = false)
  /\
  (exists p,
     estimate_demand_parameters ols (float_range 5 1)
       (map F64.of_Z [5; 4; 3; 2; 1]%Z) (Some (-100)%float) = Some p
     /\ (b_d p <? 0)%float = true).
Proof.
  split; eexists; (split; [vm_compute; reflexivity|]); vm_compute; reflexivity.
Qed.

Lemma positive_finite_spec (count : nat) : forall lo z,
  positive_finite count lo = true ->
  (lo <= z < lo + Z.of_nat count)%Z ->
  (0 <? F64.of_Z z)%float = true /\ (F64.of_Z z <? infinity)%float = true.
Proof.
  induction count as [|count IH]; intros lo z C R; [lia|].
  simpl in C. apply andb_prop in C as [C0 C].
  destruct (Z.eq_dec z lo) as [-> | N].
  - now apply andb_prop in C0.
  - apply (IH (lo + 1)%Z); [exact C | lia].
Qed.

Lemma positive_finite_10000 : positive_finite (Z.to_nat 9901) 100 = true.
Proof. vm_compute. reflexivity. Qed.

(** What the estimator returns on doubles when the demand it scales by is
    finite and above zero: [a_d] above zero, and [b_d] at least zero when
    the fitted coefficient is a number. *)
Lemma float_parameter_signs (sk : Sklearn float)
    (prices ratings : list float) (max_theoretical_demand : option float)
    (p : DemandParameters float) (m : float) :
  estimate_demand_parameters sk prices ratings max_theoretical_demand
    = Some p ->
  a_d p = m ->
  (0 <? m)%float = true -> (m <? infinity)%float = true ->
  (0 <? a_d p)%float = true
  /\ (PrimFloat.is_nan (coef_ (model p)) = false ->
      (0 <=? b_d p)%float = true).
Proof.
  intros E A Hpos Hfin.
  apply estimate_success in E as (m' & _ & A' & B & _).
  rewrite A in A'. subst m'.
  split; [now rewrite A|]. intros Hnan.
  rewrite B. simpl. unfold PrimFloat.zero.
  destruct (coef_ (model p) <? 0)%float eqn:C.
  - destruct (Signs.abs_of_negative _ C) as [C1 C2].
    now apply Signs.mul_nonneg.
  - now apply Signs.mul_nonneg.
Qed.

(** C6, amended. Whenever the estimator succeeds with
    [max_theoretical_demand] left out or supplied above zero, it returns
    [a_d > 0] and [b_d >= 0], whichever sign the fit produced: on doubles
    when the supplied demand is finite (or, if it is left out, there are at
    most 100000 samples), with [b_d >= 0] for every fitted coefficient
    that is not NaN; in exact arithmetic always, where [b_d] is the
    absolute value of the coefficient times [a_d]. *)
Theorem parameter_signs :
  (forall (sk : Sklearn float) (prices ratings : list float)
          (max_theoretical_demand : option float)
          (p : DemandParameters float),
     match max_theoretical_demand with
     | Some supplied =>
         (0 <? supplied)%float = true /\ (supplied <? infinity)%float = true
     | None => (Z.of_nat (length prices) <= 100000)%Z
     end ->
     estimate_demand_parameters sk prices ratings max_theoretical_demand
       = Some p ->
     (0 <? a_d p)%float = true
     /\ (PrimFloat.is_nan (coef_ (model p)) = false ->
         (0 <=? b_d p)%float = true))
  /\
  (forall (sk : Sklearn R) (prices ratings : list R)
          (max_theoretical_demand : option R) (p : DemandParameters R),
     match max_theoretical_demand with
     | Some supplied => (0 < supplied)%R
     | None => True
     end ->
     estimate_demand_parameters sk prices ratings max_theoretical_demand
       = Some p ->
     (0 < a_d p)%R /\ (0 <= b_d p)%R
     /\ b_d p = (Rabs (coef_ (model p)) * a_d p)%R).
Proof.
  split.
  - intros sk prices ratings mtd p Hm E.
    pose proof (estimate_success _ _ _ _ E) as (m & D & A & _).
    destruct mtd as [supplied|].
    + subst m. destruct Hm as [Hpos Hfin].
      now apply (float_parameter_signs _ _ _ _ E A).
    + rewrite float_default_demand in D by exact Hm. inversion D as [Dm].
      destruct (@positive_finite_spec _ 100%Z
                  (Z.max 100 (Z.of_nat (length prices) / 10))
                  positive_finite_10000) as [Hpos Hfin].
      { split; [lia|].
        assert (Z.of_nat (length prices) / 10 <= 10000)%Z
          by (apply Z.div_le_upper_bound; lia).
        change (Z.of_nat (Z.to_nat 9901)) with 9901%Z. lia. }
      rewrite Dm in Hpos, Hfin.
      now apply (float_parameter_signs _ _ _ _ E A).
  - intros sk prices ratings mtd p Hm E.
    apply estimate_success in E as (m & D & A & B & _).
    assert (Hpos : (0 < m)%R).
    { destruct mtd as [supplied|].
      - now subst m.
      - rewrite exact_default_demand in D. inversion D.
        apply IZR_lt. lia. }
    assert (Hb : b_d p = (Rabs (coef_ (model p)) * a_d p)%R).
    { rewrite B, A. simpl.
      destruct (Exact.ltb (coef_ (model p)) 0) eqn:C; [reflexivity|].
      apply ExactFacts.ltb_false in C.
      rewrite Rabs_right; [reflexivity|lra]. }
    rewrite Hb, A. repeat split; auto.
    apply Rmult_le_pos; [apply Rabs_pos | lra].
Qed.

Lemma parameter_signs_witness :
  match estimate_demand_parameters ols (float_range 5 1)
          (map F64.of_Z [5; 4; 3; 2; 1]%Z) (Some 100%float) with
  | Some p => (0 <? a_d p)%float = true /\ (0 <=? b_d p)%float = true
  | None => False
  end.
Proof.
  destruct (estimate_demand_parameters ols _ _ (Some 100%float))
    as [p|] eqn:E.
  - destruct (proj1 parameter_signs ols (float_range 5 1)
                (map F64.of_Z [5; 4; 3; 2; 1]%Z) (Some 100%float) p)
      as [Ha Hb].
    + split; vm_compute; reflexivity.
    + exact E.
    + split; [exact Ha|]. apply Hb.
      vm_compute in E. inversion E. vm_compute. reflexivity.
  - vm_compute in E. discriminate.
Defined.

(* ================================================================== *)
(** * Golden-section search in exact arithmetic *)
(* ================================================================== *)

Section LoopRuns.

Context {T : Type} `{Scalar T}.
Implicit Types (func : T -> T) (st : SearchState T) (tol : T).

(** The state the loop stops in is the state after some number of passes,
    and it fails the guard. *)
Lemma while_loop_state_after fuel : forall func tol st st',
  while_loop fuel func tol st = Some st' ->
  exists n, state_after n func tol st = Some st'
            /\ loop_guard tol st' = false.
Proof.
  induction fuel as [|fuel IH]; intros func tol st st' E; simpl in E;
    destruct (loop_guard tol st) eqn:G; try discriminate.
  - inversion E; subst. now exists 0%nat.
  - apply IH in E as (n & E & G'). exists (S n). simpl. now rewrite G.
  - inversion E; subst. now exists 0%nat.
Qed.

(** Every state before the last one passed the guard. *)
Lemma state_after_earlier n : forall func tol st st' k,
  state_after n func tol st = Some st' -> (k < n)%nat ->
  exists stk, state_after k func tol st = Some stk
              /\ loop_guard tol stk = true.
Proof.
  induction n as [|n IH]; intros func tol st st' k E Hk; [lia|].
  simpl in E. destruct (loop_guard tol st) eqn:G; [|discriminate].
  destruct k as [|k].
  - exists st. now split.
  - destruct (IH func tol (loop_body func st) st' k E ltac:(lia))
      as (stk & Ek & Gk).
    exists stk. simpl. now rewrite G.
Qed.

Lemma state_after_iteration n : forall func tol st st',
  state_after n func tol st = Some st' ->
  gs_iteration st' = (gs_iteration st + Z.of_nat n)%Z.
Proof.
  induction n as [|n IH]; intros func tol st st' E; simpl in E.
  - inversion E; subst. lia.
  - destruct (loop_guard tol st); [|discriminate].
    apply IH in E. rewrite loop_body_iteration in E. lia.
Qed.

End LoopRuns.

Section ExactSearch.

Variable func : R -> R.
Local Open Scope R_scope.

Lemma narrowed_initial (a b : R) :
  a <= b -> narrowed func a b 0 (initial_state func a b).
Proof.
  intros Hab. unfold narrowed. repeat split; simpl; auto; lra.
Qed.

Lemma narrowed_body (a0 b0 : R) (n : nat) (st : SearchState R) :
  narrowed func a0 b0 n st -> narrowed func a0 b0 (S n) (loop_body func st).
Proof.
  intros (G & C & W & Ha & Hb).
  pose proof (golden_split_body func G) as G'.
  pose proof (loop_body_cache C) as C'.
  pose proof (golden_split_ordered G) as ((O1 & O2) & O3).
  destruct G as (Hab & E1 & E2).
  unfold narrowed. split; [exact G'|]. split; [exact C'|].
  unfold loop_body. destruct (s_ltb (gs_f2 st) (gs_f1 st)); simpl;
    repeat split; try lra.
  - rewrite E2.
    replace (gs_a st + phi * (gs_b st - gs_a st) - gs_a st)
      with (phi * (gs_b st - gs_a st)) by ring.
    rewrite W. ring.
  - rewrite E1.
    replace (gs_b st - (gs_b st - phi * (gs_b st - gs_a st)))
      with (phi * (gs_b st - gs_a st)) by ring.
    rewrite W. ring.
Qed.

Lemma narrowed_after (a0 b0 tol : R) (n : nat) : forall k st st',
  narrowed func a0 b0 k st ->
  state_after n func tol st = Some st' ->
  narrowed func a0 b0 (k + n) st'.
Proof.
  induction n as [|n IH]; intros k st st' N E; simpl in E.
  - inversion E; subst. now rewrite Nat.add_0_r.
  - destruct (loop_guard tol st); [|discriminate].
    rewrite Nat.add_succ_r. apply (IH (S k) (loop_body func st) st').
    + now apply narrowed_body.
    + exact E.
Qed.

(** The search as the state after [n] passes, [n] being the count it
    returns. *)
Lemma search_run (a b tol : R) :
  exists n st,
    state_after n func tol (initial_state func a b) = Some st
    /\ loop_guard tol st = false
    /\ (n <= 100)%nat
    /\ golden_section_search func a b tol
       = Some ((gs_a st + gs_b st) / 2, func ((gs_a st + gs_b st) / 2),
               Z.of_nat n).
Proof.
  destruct (while_loop_enough 100 func tol (initial_state func a b))
    as (st & E & _ & _ & Hcap); [simpl; lia|].
  destruct (while_loop_state_after _ _ _ _ E) as (n & En & G).
  pose proof (state_after_iteration _ _ _ _ En) as I. simpl in I, Hcap.
  exists n, st. repeat split; auto; [lia|].
  unfold golden_section_search, golden_section_search_fuel.
  rewrite E. simpl. unfold search_result. now rewrite I.
Qed.

Lemma narrowed_run (a b tol : R) (n : nat) (st : SearchState R) :
  a <= b ->
  state_after n func tol (initial_state func a b) = Some st ->
  narrowed func a b n st.
Proof.
  intros Hab E.
  apply (@narrowed_after a b tol n 0%nat (initial_state func a b) st);
    [now apply narrowed_initial | exact E].
Qed.

Lemma phi_pow_pos (n : nat) : 0 < phi ^ n.
Proof. apply pow_lt. pose proof ExactFacts.phi_bounds. lra. Qed.

End ExactSearch.

Section ExactSearchResults.

Variable func : R -> R.
Local Open Scope R_scope.

(** X1. In exact arithmetic, on a bracket [a <= b], the search returns a
    point of the bracket and the value of the function there. *)
Theorem search_stays_in_bracket (a b tol : R) :
  a <= b ->
  exists optimal_x maximum_value iteration,
    golden_section_search func a b tol
      = Some (optimal_x, maximum_value, iteration)
    /\ a <= optimal_x <= b
    /\ maximum_value = func optimal_x.
Proof.
  intros Hab. destruct (search_run func a b tol) as (n & st & E & _ & _ & Res).
  pose proof (@narrowed_run func _ _ _ _ _ Hab E)
    as ((Hle & _) & _ & _ & Ha & Hb).
  eexists _, _, _. split; [exact Res|]. split; [lra|reflexivity].
Qed.

(** X2. In exact arithmetic the iteration count depends on the bracket and
    the tolerance only: it is the first [n] at which [phi^n (b - a)] is
    within the tolerance, or 100 if there is none below 100. *)
Theorem search_iteration_count (a b tol : R) :
  a <= b ->
  exists optimal_x maximum_value n,
    golden_section_search func a b tol
      = Some (optimal_x, maximum_value, Z.of_nat n)
    /\ (n <= 100)%nat
    /\ (n = 100%nat \/ phi ^ n * (b - a) <= tol)
    /\ forall k, (k < n)%nat -> tol < phi ^ k * (b - a).
Proof.
  intros Hab. destruct (search_run func a b tol) as (n & st & E & G & Hn & Res).
  pose proof (@narrowed_run func _ _ _ _ _ Hab E)
    as ((Hle & _) & _ & W & _ & _).
  eexists _, _, n. split; [exact Res|]. split; [exact Hn|]. split.
  - unfold loop_guard in G. apply andb_false_iff in G as [G | G].
    + right. simpl in G. apply ExactFacts.ltb_false in G.
      rewrite Rabs_right in G by lra. simpl in W. lra.
    + left. apply Z.ltb_ge in G.
      rewrite (state_after_iteration _ _ _ _ E) in G. simpl in G. lia.
  - intros k Hk.
    edestruct state_after_earlier as (stk & Ek & Gk); [exact E|exact Hk|].
    pose proof (@narrowed_run func _ _ _ _ _ Hab Ek)
      as ((Hlek & _) & _ & Wk & _ & _).
    unfold loop_guard in Gk. apply andb_prop in Gk as [Gk _].
    simpl in Gk. apply ExactFacts.ltb_true in Gk.
    rewrite Rabs_right in Gk by lra. simpl in Wk. lra.
Qed.

(** One pass keeps the peak of a unimodal function inside the bracket. *)
Lemma peak_kept (a0 b0 peak : R) (n : nat) (st : SearchState R) :
  unimodal_on func a0 b0 peak ->
  narrowed func a0 b0 n st ->
  gs_a st <= peak <= gs_b st ->
  gs_a (loop_body func st) <= peak <= gs_b (loop_body func st).
Proof.
  intros (Hp & Hup & Hdown) (G & (C1 & C2) & W & Ha & Hb) Hin.
  pose proof (golden_split_ordered G) as ((O1 & O2) & O3).
  destruct G as (Hab & E1 & E2).
  pose proof ExactFacts.phi_bounds as [Hlo Hhi].
  unfold loop_body. destruct (s_ltb (gs_f2 st) (gs_f1 st)) eqn:B; simpl.
  - simpl in B. apply ExactFacts.ltb_true in B. rewrite C1, C2 in B.
    split; [lra|].
    destruct (Rle_dec peak (gs_x2 st)) as [L|L]; [exact L|exfalso].
    destruct (Rlt_dec (gs_x1 st) (gs_x2 st)) as [Lt|Ge].
    + assert (func (gs_x1 st) < func (gs_x2 st)) by (apply Hup; lra). lra.
    + assert (gs_x1 st = gs_x2 st) by lra. rewrite H in B. lra.
  - simpl in B. apply ExactFacts.ltb_false in B. rewrite C1, C2 in B.
    split; [|lra].
    destruct (Rle_dec (gs_x1 st) peak) as [L|L]; [exact L|exfalso].
    destruct (Rlt_dec (gs_x1 st) (gs_x2 st)) as [Lt|Ge].
    + assert (func (gs_x2 st) < func (gs_x1 st)) by (apply Hdown; lra). lra.
    + assert (Q : gs_x1 st = gs_x2 st) by lra.
      rewrite E1, E2 in Q.
      assert (gs_b st - gs_a st = 0) by nra. lra.
Qed.

Lemma peak_kept_after (a0 b0 tol peak : R) (n : nat) : forall k st st',
  unimodal_on func a0 b0 peak ->
  narrowed func a0 b0 k st ->
  gs_a st <= peak <= gs_b st ->
  state_after n func tol st = Some st' ->
  gs_a st' <= peak <= gs_b st'.
Proof.
  induction n as [|n IH]; intros k st st' U N P E; simpl in E.
  - now inversion E; subst.
  - destruct (loop_guard tol st); [|discriminate].
    eapply (IH (S k)); [exact U | apply (narrowed_body N) | | exact E].
    eapply peak_kept; eassumption.
Qed.

(** X3. In exact arithmetic, for a function that rises strictly up to
    [peak] and falls strictly after it on [[a, b]], the point the search
    returns after [n] passes is within half of [phi^n (b - a)] of the peak,
    and within half the tolerance when it stops before the cap. *)
Theorem search_finds_peak (a b tol peak : R) :
  unimodal_on func a b peak ->
  exists optimal_x maximum_value n,
    golden_section_search func a b tol
      = Some (optimal_x, maximum_value, Z.of_nat n)
    /\ Rabs (optimal_x - peak) <= phi ^ n * (b - a) / 2
    /\ ((n < 100)%nat -> Rabs (optimal_x - peak) <= tol / 2).
Proof.
  intros U. assert (Hab : a <= b) by (destruct U as ((? & ?) & _); lra).
  destruct (search_run func a b tol) as (n & st & E & G & Hn & Res).
  pose proof (@narrowed_run func _ _ _ _ _ Hab E) as N.
  assert (P : gs_a st <= peak <= gs_b st).
  { eapply peak_kept_after;
      [exact U | apply (narrowed_initial func Hab) | | exact E].
    simpl. destruct U as (? & _). lra. }
  destruct N as ((Hle & _) & _ & W & _ & _). simpl in W.
  assert (D : Rabs ((gs_a st + gs_b st) / 2 - peak)
              <= phi ^ n * (b - a) / 2).
  { apply Rabs_le. lra. }
  eexists _, _, n. split; [exact Res|]. split; [exact D|].
  intros Hlt. unfold loop_guard in G. apply andb_false_iff in G as [G | G].
  - simpl in G. apply ExactFacts.ltb_false in G.
    rewrite Rabs_right in G by lra. lra.
  - apply Z.ltb_ge in G.
    rewrite (state_after_iteration _ _ _ _ E) in G. simpl in G. lia.
Qed.

End ExactSearchResults.

Lemma search_finds_peak_witness :
  exists optimal_x maximum_value n,
    golden_section_search (fun x : R => (10 - (x - 5) * (x - 5))%R)
      0%R 10%R 1%R = Some (optimal_x, maximum_value, Z.of_nat n)
    /\ (Rabs (optimal_x - 5) <= phi ^ n * (10 - 0) / 2)%R.
Proof.
  destruct (@search_finds_peak (fun x : R => (10 - (x - 5) * (x - 5))%R)
              0%R 10%R 1%R 5%R) as (x & v & n & E & D & _).
  - repeat split; try lra; intros x y H1 H2 H3; nra.
  - exists x, v, n. now split.
Defined.

Lemma search_stays_in_bracket_witness :
  exists optimal_x maximum_value iteration,
    golden_section_search (fun x : R => x) 0%R 10%R 1%R
      = Some (optimal_x, maximum_value, iteration)
    /\ (0 <= optimal_x <= 10)%R.
Proof.
  destruct (@search_stays_in_bracket (fun x : R => x) 0%R 10%R 1%R
              ltac:(lra)) as (x & v & n & E & D & _).
  exists x, v, n. now split.
Defined.

Lemma search_iteration_count_witness :
  exists optimal_x maximum_value n,
    golden_section_search (fun x : R => x) 0%R 10%R 1%R
      = Some (optimal_x, maximum_value, Z.of_nat n)
    /\ (n <= 100)%nat.
Proof.
  destruct (@search_iteration_count (fun x : R => x) 0%R 10%R 1%R
              ltac:(lra)) as (x & v & n & E & D & _).
  exists x, v, n. now split.
Defined.

(* ================================================================== *)
(** * The price bracket and the profit function *)
(* ================================================================== *)

Section RangeFacts.

Context {T : Type} `{Scalar T}.

(** Python's [min] returns one of the elements. *)
Lemma py_min_In (xs : list T) : forall x, In (py_min x xs) (x :: xs).
Proof.
  induction xs as [|v xs IH]; intros x.
  - now left.
  - change (py_min x (v :: xs))
      with (py_min (if s_ltb v x then v else x) xs).
    destruct (IH (if s_ltb v x then v else x)) as [E | E].
    + rewrite <- E. destruct (s_ltb v x); [right; now left | now left].
    + right. now right.
Qed.

(** X4. The bracket of a non-empty price list is made of two of its prices,
    in every arithmetic; the bracket of the empty list is [[0, 1000]]. *)
Theorem price_range_members (prices : list T) :
  match prices with
  | [] => get_price_range prices = (s_of_Z 0, s_of_Z 1000)
  | _ :: _ =>
      In (fst (get_price_range prices)) prices
      /\ In (snd (get_price_range prices)) prices
  end.
Proof.
  destruct prices as [|p ps]; [reflexivity|]. simpl fst. simpl snd.
  split; [apply py_min_In | apply py_max_In].
Qed.

End RangeFacts.

Section ExactRange.

Local Open Scope R_scope.

Lemma py_max_upper (xs : list R) : forall x,
  x <= py_max x xs /\ forall v, In v xs -> v <= py_max x xs.
Proof.
  induction xs as [|w xs IH]; intros x.
  - split; [simpl; lra | intros v []].
  - change (py_max x (w :: xs))
      with (py_max (if Exact.ltb x w then w else x) xs).
    destruct (IH (if Exact.ltb x w then w else x)) as [I1 I2].
    destruct (Exact.ltb x w) eqn:C.
    + apply ExactFacts.ltb_true in C. split; [lra|].
      intros v [<- | I]; [exact I1 | now apply I2].
    + apply ExactFacts.ltb_false in C. split; [exact I1|].
      intros v [<- | I]; [lra | now apply I2].
Qed.

Lemma py_min_lower (xs : list R) : forall x,
  py_min x xs <= x /\ forall v, In v xs -> py_min x xs <= v.
Proof.
  induction xs as [|w xs IH]; intros x.
  - split; [simpl; lra | intros v []].
  - change (py_min x (w :: xs))
      with (py_min (if Exact.ltb w x then w else x) xs).
    destruct (IH (if Exact.ltb w x then w else x)) as [I1 I2].
    destruct (Exact.ltb w x) eqn:C.
    + apply ExactFacts.ltb_true in C. split; [lra|].
      intros v [<- | I]; [exact I1 | now apply I2].
    + apply ExactFacts.ltb_false in C. split; [exact I1|].
      intros v [<- | I]; [lra | now apply I2].
Qed.

Lemma price_range_encloses (prices : list R) (p : R) :
  In p prices ->
  fst (get_price_range prices) <= p <= snd (get_price_range prices).
Proof.
  destruct prices as [|q qs]; [intros []|]. simpl fst. simpl snd.
  destruct (py_min_lower qs q) as [L1 L2].
  destruct (py_max_upper qs q) as [U1 U2].
  intros [<- | I]; split; auto.
Qed.

(** X5. In exact arithmetic the bracket encloses every observed price: the
    low end is at most, and the high end at least, every price of the
    list, so the low end is not above the high end. *)
Theorem price_range_bounds (prices : list R) :
  (forall p, In p prices ->
     fst (get_price_range prices) <= p <= snd (get_price_range prices))
  /\ fst (get_price_range prices) <= snd (get_price_range prices).
Proof.
  split; [intros p; apply price_range_encloses|].
  destruct prices as [|q qs]; [simpl; lra|].
  destruct (price_range_encloses (q :: qs) q (or_introl eq_refl)). lra.
Qed.

Lemma price_range_bounds_witness :
  (fst (get_price_range [30%R; 10%R; 20%R]) <= 10
   <= snd (get_price_range [30%R; 10%R; 20%R]))%R.
Proof.
  apply (proj1 (price_range_bounds [30%R; 10%R; 20%R])).
  simpl. auto.
Defined.

End ExactRange.

Section ExactProfit.

Local Open Scope R_scope.

Lemma talep_exact (f a_d b_d : R) :
  talep_fonksiyonu f a_d b_d = Rmax 0 (a_d - b_d * f).
Proof.
  rewrite talep_fonksiyonu_cases. simpl.
  destruct (Exact.ltb 0 (a_d - b_d * f)) eqn:E.
  - apply ExactFacts.ltb_true in E. rewrite Rmax_right; lra.
  - apply ExactFacts.ltb_false in E. rewrite Rmax_left; lra.
Qed.

Lemma kar_exact (f C a_d b_d : R) :
  kar_fonksiyonu f C a_d b_d = (f - C) * Rmax 0 (a_d - b_d * f).
Proof. unfold kar_fonksiyonu. now rewrite talep_exact. Qed.

(** X6. In exact arithmetic the profit is zero at a price equal to the
    cost, never negative at a price above the cost and never positive at a
    price below it, whatever the demand parameters. *)
Theorem profit_sign (f C a_d b_d : R) :
  kar_fonksiyonu C C a_d b_d = 0
  /\ (C <= f -> 0 <= kar_fonksiyonu f C a_d b_d)
  /\ (f <= C -> kar_fonksiyonu f C a_d b_d <= 0).
Proof.
  rewrite !kar_exact.
  pose proof (Rmax_l 0 (a_d - b_d * f)) as M.
  repeat split.
  - ring.
  - intros Hf. apply Rmult_le_pos; lra.
  - intros Hf.
    replace ((f - C) * Rmax 0 (a_d - b_d * f))
      with (- ((C - f) * Rmax 0 (a_d - b_d * f))) by ring.
    assert (0 <= (C - f) * Rmax 0 (a_d - b_d * f))
      by (apply Rmult_le_pos; lra).
    lra.
Qed.

Lemma profit_sign_witness : (0 <= kar_fonksiyonu 7 5 100 2)%R.
Proof. apply (proj1 (proj2 (profit_sign 7 5 100 2))). lra. Defined.

(** X7. In exact arithmetic, with a price sensitivity above zero and a cost
    at which demand is not yet zero ([b_d * C <= a_d]), no price earns more
    than the price [(a_d + b_d * C) / (2 * b_d)], half-way between the cost
    and the price at which demand vanishes; the profit there is
    [(a_d - b_d * C)^2 / (4 * b_d)]. *)
Theorem profit_maximum (f C a_d b_d : R) :
  0 < b_d -> b_d * C <= a_d ->
  kar_fonksiyonu f C a_d b_d
    <= kar_fonksiyonu ((a_d + b_d * C) / (2 * b_d)) C a_d b_d
  /\ kar_fonksiyonu ((a_d + b_d * C) / (2 * b_d)) C a_d b_d
     = (a_d - b_d * C) * (a_d - b_d * C) / (4 * b_d).
Proof.
  intros Hb Hc. rewrite !kar_exact.
  set (best := (a_d + b_d * C) / (2 * b_d)).
  assert (Eb : b_d * best = (a_d + b_d * C) / 2).
  { unfold best. field. lra. }
  assert (Ed : a_d - b_d * best = (a_d - b_d * C) / 2) by lra.
  assert (Ec : best - C = (a_d - b_d * C) / (2 * b_d)).
  { unfold best. field. lra. }
  assert (V : (best - C) * Rmax 0 (a_d - b_d * best)
              = (a_d - b_d * C) * (a_d - b_d * C) / (4 * b_d)).
  { rewrite Rmax_right by lra. rewrite Ec, Ed. field. lra. }
  split; [|exact V]. rewrite V.
  assert (P : 0 <= (a_d - b_d * C) * (a_d - b_d * C) / (4 * b_d)).
  { apply Rmult_le_pos; [nra|]. apply Rlt_le, Rinv_0_lt_compat. lra. }
  destruct (Rle_dec (a_d - b_d * f) 0) as [Z | NZ].
  - rewrite Rmax_left by lra. lra.
  - rewrite Rmax_right by lra.
    assert (Q : (a_d - b_d * C) * (a_d - b_d * C) / (4 * b_d)
                - (f - C) * (a_d - b_d * f)
                = b_d * ((f - best) * (f - best))).
    { unfold best. field. lra. }
    assert (0 <= b_d * ((f - best) * (f - best))).
    { apply Rmult_le_pos; [lra|]. apply (Rle_0_sqr (f - best)). }
    lra.
Qed.

Lemma profit_maximum_witness :
  (kar_fonksiyonu 40 5 100 2
   <= kar_fonksiyonu ((100 + 2 * 5) / (2 * 2)) 5 100 2)%R.
Proof.
  apply (proj1 (@profit_maximum 40 5 100 2 ltac:(lra) ltac:(lra))).
Defined.

End ExactProfit.

(* ================================================================== *)
(** * The orchestrator *)
(* ================================================================== *)

Section OrchestratorFacts.

Context {T : Type} `{Scalar T}.

(** The search always returns, with a count within the cap. *)
Lemma search_returns (func : T -> T) (a b tol : T) :
  exists st,
    golden_section_search func a b tol = Some (search_result func st)
    /\ (0 <= gs_iteration st <= 100)%Z.
Proof.
  destruct (while_loop_enough 100 func tol (initial_state func a b))
    as (st & E & _ & Hlo & Hhi); [simpl; lia|].
  exists st. unfold golden_section_search, golden_section_search_fuel.
  rewrite E. simpl in Hlo, Hhi. split; [reflexivity|lia].
Qed.

(** What a result of [run_optimization] was computed from. *)
Lemma run_optimization_inv (sk : Sklearn T) (prices ratings : list T)
    (supplied_cost max_theoretical_demand : option T) (r : OptimizationResult T) :
  run_optimization sk prices ratings supplied_cost
    max_theoretical_demand = Some r ->
  estimate_demand_parameters sk prices ratings max_theoretical_demand
    = Some (demand_parameters r)
  /\ cost r
     = match supplied_cost with
       | Some supplied => supplied
       | None => match prices with
                 | p :: ps => s_mul (py_min p ps) (s_lit 7 10)
                 | [] => s_of_Z 10
                 end
       end
  /\ price_range r = get_price_range prices
  /\ estimated_demand r
     = talep_fonksiyonu (optimum_price r) (a_d (demand_parameters r))
         (b_d (demand_parameters r))
  /\ golden_section_search
       (fun price => kar_fonksiyonu price (cost r)
                       (a_d (demand_parameters r))
                       (b_d (demand_parameters r)))
       (fst (get_price_range prices)) (snd (get_price_range prices))
       default_tol
     = Some (optimum_price r, maximum_profit r, iterations r).
Proof.
  unfold run_optimization.
  destruct (get_price_range prices) as [lo hi] eqn:PR.
  destruct (estimate_demand_parameters _ _ _ _) as [params|];
    [|discriminate].
  destruct (golden_section_search _ lo hi default_tol)
    as [[[x v] n]|] eqn:G; [|discriminate].
  intros E. inversion E; subst r; clear E. simpl.
  repeat split; auto.
Qed.

Lemma run_optimization_none (sk : Sklearn T)
    (prices ratings : list T)
    (supplied_cost max_theoretical_demand : option T) :
  run_optimization sk prices ratings supplied_cost
    max_theoretical_demand = None
  <-> estimate_demand_parameters sk prices ratings max_theoretical_demand
      = None.
Proof.
  unfold run_optimization.
  destruct (get_price_range prices) as [lo hi].
  destruct (estimate_demand_parameters _ _ _ _) as [params|];
    [|split; reflexivity].
  match goal with
  | |- context [golden_section_search ?f lo hi default_tol] =>
      destruct (search_returns f lo hi default_tol) as (st & -> & _)
  end.
  unfold search_result. split; discriminate.
Qed.

(** X8. The orchestrator fails exactly when the estimator does: it returns
    [None] if and only if [estimate_demand_parameters] returns [None] on the
    same prices, ratings and [max_theoretical_demand]; the search never
    makes it fail. *)
Theorem run_optimization_fails_iff (sk : Sklearn T)
    (prices ratings : list T)
    (supplied_cost max_theoretical_demand : option T) :
  run_optimization sk prices ratings supplied_cost
    max_theoretical_demand = None
  <-> estimate_demand_parameters sk prices ratings max_theoretical_demand
      = None.
Proof. apply run_optimization_none. Qed.

(** X9. A result of the orchestrator is consistent: it carries the
    estimator's parameters and the bracket of the prices, its count is
    within 0 and 100, its demand is the demand function at the optimum
    price, and its profit is the optimum price less the cost, times that
    demand. *)
Theorem run_optimization_consistent (sk : Sklearn T)
    (prices ratings : list T) (supplied_cost max_theoretical_demand : option T)
    (r : OptimizationResult T) :
  run_optimization sk prices ratings supplied_cost
    max_theoretical_demand = Some r ->
  estimate_demand_parameters sk prices ratings max_theoretical_demand
    = Some (demand_parameters r)
  /\ price_range r = get_price_range prices
  /\ (0 <= iterations r <= 100)%Z
  /\ estimated_demand r
     = talep_fonksiyonu (optimum_price r) (a_d (demand_parameters r))
         (b_d (demand_parameters r))
  /\ maximum_profit r
     = s_mul (s_sub (optimum_price r) (cost r))
         (estimated_demand r).
Proof.
  intros E.
  destruct (run_optimization_inv _ _ _ _ _ E) as (Ep & Ec & Er & Ed & G).
  match type of G with
  | golden_section_search ?f ?lo ?hi _ = _ =>
      destruct (search_returns f lo hi default_tol) as (st & G' & Hit)
  end.
  rewrite G' in G. unfold search_result in G. injection G as Gx Gv Gn.
  split; [exact Ep|]. split; [exact Er|]. split; [lia|].
  split; [exact Ed|].
  rewrite <- Gv, Ed, <- Gx. reflexivity.
Qed.

(** X10. The fall-backs of the orchestrator are never used: on an empty
    price list it returns [None], so a result always has the bracket
    [[min(prices), max(prices)]], and a cost that was not supplied is 0.7
    times the lowest price. *)
Theorem run_optimization_no_fallback (sk : Sklearn T)
    (prices ratings : list T)
    (supplied_cost max_theoretical_demand : option T) :
  match run_optimization sk prices ratings supplied_cost
    max_theoretical_demand with
  | None => True
  | Some r =>
      exists p ps,
        prices = p :: ps
        /\ price_range r = (py_min p ps, py_max p ps)
        /\ cost r = match supplied_cost with
                              | Some supplied => supplied
                              | None => s_mul (py_min p ps) (s_lit 7 10)
                              end
  end.
Proof.
  destruct (run_optimization _ _ _ _ _) as [r|] eqn:E; [|exact I].
  destruct (run_optimization_inv _ _ _ _ _ E) as (Ep & Ec & Er & _).
  destruct prices as [|p ps]; [discriminate Ep|].
  exists p, ps. now repeat split.
Qed.

End OrchestratorFacts.

Lemma run_optimization_consistent_witness :
  match run_optimization ols (float_range 5 1)
          (map F64.of_Z [5; 4; 3; 2; 1]%Z) (Some 0.5%float)
          (Some 100%float) with
  | Some r => (0 <= iterations r <= 100)%Z
  | None => False
  end.
Proof.
  destruct (run_optimization ols _ _ _ _) as [r|] eqn:E.
  - now destruct (run_optimization_consistent _ _ _ _ _ E)
      as (_ & _ & Hit & _).
  - vm_compute in E. discriminate.
Defined.

Section ExactOrchestrator.

Local Open Scope R_scope.

(** X11. In exact arithmetic the optimum price of a result lies within the
    observed prices: it is at least the lowest and at most the highest
    price of the list. *)
Theorem optimum_in_price_range (sk : Sklearn R) (prices ratings : list R)
    (supplied_cost max_theoretical_demand : option R)
    (r : OptimizationResult R) :
  run_optimization sk prices ratings supplied_cost max_theoretical_demand
    = Some r ->
  fst (get_price_range prices) <= optimum_price r
    <= snd (get_price_range prices).
Proof.
  intros E.
  destruct (run_optimization_inv _ _ _ _ _ E) as (_ & _ & _ & _ & G).
  assert (Hab : fst (get_price_range prices) <= snd (get_price_range prices)).
  { destruct prices as [|q qs]; [simpl; lra|].
    destruct (price_range_encloses (q :: qs) q (or_introl eq_refl)). lra. }
  match type of G with
  | golden_section_search ?f ?lo ?hi ?tol = _ =>
      destruct (search_run f lo hi tol) as (n & st & En & _ & _ & Res);
      pose proof (@narrowed_run f _ _ _ _ _ Hab En)
        as ((Hle & _) & _ & _ & Ha & Hb)
  end.
  rewrite Res in G. injection G as Gx _ _. rewrite <- Gx. lra.
Qed.

Lemma exact_run_succeeds :
  run_optimization ols [1; 2] [4; 3] (Some 0.5) (Some 100) <> None.
Proof.
  intros E. apply run_optimization_none in E. revert E.
  unfold estimate_demand_parameters, fit_demand_curve. simpl.
  destruct (Exact.ltb _ _); simpl; discriminate.
Qed.

Lemma optimum_in_price_range_witness :
  exists r,
    run_optimization ols [1; 2] [4; 3] (Some 0.5) (Some 100) = Some r
    /\ fst (get_price_range [1; 2]) <= optimum_price r
       <= snd (get_price_range [1; 2]).
Proof.
  destruct (run_optimization ols [1; 2] [4; 3] (Some 0.5) (Some 100))
    as [r|] eqn:E.
  - exists r. split; [reflexivity|].
    exact (optimum_in_price_range _ _ _ _ _ E).
  - now apply exact_run_succeeds in E.
Defined.

End ExactOrchestrator.

(* ================================================================== *)
(** * The estimator: the regression it runs *)
(* ================================================================== *)

Section ExactProportion.

Local Open Scope R_scope.

(** X12. In exact arithmetic, on a frame whose ratings are not negative and
    not all zero, every demand proportion lies in [[0, 1]] and the
    proportion 1 occurs (at a row of maximal rating). *)
Theorem demand_proportion_unit (row : R * R) (rows : list (R * R)) :
  (forall r, In r (row :: rows) -> 0 <= snd r) ->
  (exists r, In r (row :: rows) /\ 0 < snd r) ->
  (forall d, In d (demand_proportion row rows) -> 0 <= d <= 1)
  /\ In 1 (demand_proportion row rows).
Proof.
  intros Hnn (r0 & I0 & P0). unfold demand_proportion.
  set (m := py_max (snd row) (map snd rows)).
  destruct (py_max_upper (map snd rows) (snd row)) as [U1 U2]. fold m in U1, U2.
  assert (Ub : forall r, In r (row :: rows) -> snd r <= m).
  { intros r [<- | I]; [exact U1|]. apply U2. now apply in_map. }
  assert (Hm : 0 < m) by (specialize (Ub r0 I0); lra).
  split.
  - intros d I. apply in_map_iff in I as (r & <- & I).
    specialize (Hnn r I). specialize (Ub r I). simpl.
    split.
    + apply Rmult_le_pos; [lra|]. apply Rlt_le, Rinv_0_lt_compat, Hm.
    + apply (Rmult_le_reg_r m); [exact Hm|].
      unfold Rdiv. rewrite Rmult_assoc, Rinv_l; lra.
  - assert (Im : In m (map snd (row :: rows))) by apply py_max_In.
    apply in_map_iff in Im as (r & Er & I).
    apply in_map_iff. exists r. split; [|exact I].
    simpl. rewrite Er. unfold Rdiv. apply Rinv_r. lra.
Qed.

Lemma demand_proportion_unit_witness :
  In 1 (demand_proportion (10, 400) [(20, 300); (30, 0)]).
Proof.
  apply (@demand_proportion_unit (10, 400) [(20, 300); (30, 0)]).
  - simpl. intros r [<- | [<- | [<- | []]]]; simpl; lra.
  - exists (10, 400). simpl. split; [auto|lra].
Defined.

End ExactProportion.

Section EstimatorRuns.

Context {T : Type} `{Scalar T}.

(** The estimator succeeds when the input passes the checks, the frame
    keeps a row, the default demand can be computed and the library does
    not raise on the regression input built from the frame. *)
Lemma estimate_runs (sk : Sklearn T) (prices ratings : list T)
    (max_theoretical_demand : option T) (row : T * T)
    (rows : list (T * T)) :
  prices <> [] -> ratings <> [] -> length prices = length ratings ->
  dropna (combine prices (map (fun r => s_mul r (s_of_Z 100)) ratings))
    = row :: rows ->
  (max_theoretical_demand = None ->
   default_max_theoretical_demand (length prices) <> None) ->
  let X := map fst (row :: rows) in
  let y := map (fun d => s_sub (s_of_Z 1) d) (demand_proportion row rows) in
  (forall fit_intercept, LinearRegression_fit sk fit_intercept X y <> None) ->
  (forall fit_intercept model,
     LinearRegression_fit sk fit_intercept X y = Some model ->
     r2_score sk y (predict model X) <> None) ->
  estimate_demand_parameters sk prices ratings max_theoretical_demand
    <> None.
Proof.
  intros Hp Hr Hlen Hdrop Hdef X y Hfit Hscore.
  unfold estimate_demand_parameters.
  destruct prices as [|p0 ps]; [contradiction|].
  destruct ratings as [|r0 rs]; [contradiction|].
  simpl is_empty. simpl orb. cbv iota.
  apply Nat.eqb_eq in Hlen. rewrite Hlen. simpl negb. cbv iota.
  rewrite Hdrop. unfold fit_demand_curve. fold X. fold y.
  destruct (LinearRegression_fit sk true X y) as [mwi|] eqn:F1;
    [|now apply Hfit in F1].
  destruct (LinearRegression_fit sk (if s_ltb _ _ then false else true) X y)
    as [mdl|] eqn:F2; [|now apply Hfit in F2].
  destruct max_theoretical_demand as [m|].
  - destruct (r2_score sk _ _) eqn:S;
      [discriminate | now apply (Hscore _ _ F2) in S].
  - destruct (default_max_theoretical_demand _) as [m|] eqn:D;
      [|now elim (Hdef eq_refl)].
    destruct (r2_score sk _ _) eqn:S;
      [discriminate | now apply (Hscore _ _ F2) in S].
Qed.

End EstimatorRuns.

(** X14. On doubles the failures of the estimator are the checked inputs
    and the library's exceptions only: for non-empty sequences of equal
    length (at most 100000 samples when [max_theoretical_demand] is left
    out), a frame with a row left after [dropna], and a library whose
    [fit] and [r2_score] do not raise on the regression input built from
    that frame, the estimator returns a record. *)
Theorem estimate_succeeds (sk : Sklearn float) (prices ratings : list float)
    (max_theoretical_demand : option float) (row : float * float)
    (rows : list (float * float)) :
  prices <> [] -> ratings <> [] -> length prices = length ratings ->
  (max_theoretical_demand = None ->
   (Z.of_nat (length prices) <= 100000)%Z) ->
  dropna (combine prices (map (fun r => s_mul r (s_of_Z 100)) ratings))
    = row :: rows ->
  let X := map fst (row :: rows) in
  let y := map (fun d => s_sub (s_of_Z 1) d) (demand_proportion row rows) in
  (forall fit_intercept, LinearRegression_fit sk fit_intercept X y <> None) ->
  (forall fit_intercept model,
     LinearRegression_fit sk fit_intercept X y = Some model ->
     r2_score sk y (predict model X) <> None) ->
  exists p,
    estimate_demand_parameters sk prices ratings max_theoretical_demand
      = Some p.
Proof.
  intros Hp Hr Hlen Hn Hdrop X y Hfit Hscore.
  destruct (estimate_demand_parameters sk prices ratings
              max_theoretical_demand) as [p|] eqn:E; [now exists p|].
  exfalso. revert E.
  apply (@estimate_runs _ _ sk prices ratings max_theoretical_demand
           row rows); auto.
  intros N. rewrite float_default_demand by auto. discriminate.
Qed.

Lemma estimate_succeeds_witness :
  exists p,
    estimate_demand_parameters ols (float_range 5 1)
      (map F64.of_Z [5; 4; 3; 2; 1]%Z) None = Some p.
Proof.
  apply (@estimate_succeeds ols (float_range 5 1)
           (map F64.of_Z [5; 4; 3; 2; 1]%Z) None
           (1%float, 500%float)
           [(2%float, 400%float); (3%float, 300%float);
            (4%float, 200%float); (5%float, 100%float)]).
  - discriminate.
  - discriminate.
  - reflexivity.
  - intros _. vm_compute. discriminate.
  - vm_compute. reflexivity.
  - intros [|]; vm_compute; discriminate.
  - intros [|] mdl E; vm_compute in E; injection E as <-;
      vm_compute; discriminate.
Defined.

(* ================================================================== *)
(** * The scraper's data assembly: lengths *)
(* ================================================================== *)

Section ExtractionFacts.

Context {T : Type} `{Scalar T}.

Lemma extract_product_lengths (acc : list T * list T) (product : Product T) :
  length (fst (extract_product acc product))
    = (length (fst acc) + if rating_appended product then 1 else 0)%nat
  /\ length (snd (extract_product acc product))
     = (length (snd acc) + if price_appended product then 1 else 0)%nat.
Proof.
  destruct acc as [ratings prices]. destruct product as [rf pf].
  unfold extract_product, price_appended, rating_appended. simpl.
  destruct rf, pf; simpl; rewrite ?length_app; simpl; lia.
Qed.

Lemma fold_extract_lengths (pro : list (Product T)) : forall acc,
  length (fst (fold_left extract_product pro acc))
    = (length (fst acc) + length (filter rating_appended pro))%nat
  /\ length (snd (fold_left extract_product pro acc))
     = (length (snd acc) + length (filter price_appended pro))%nat.
Proof.
  induction pro as [|product pro IH]; intros acc; simpl; [lia|].
  destruct (IH (extract_product acc product)) as [I1 I2].
  destruct (extract_product_lengths acc product) as [E1 E2].
  rewrite I1, I2, E1, E2.
  destruct (rating_appended product), (price_appended product); simpl; lia.
Qed.

Lemma filter_price_le (pro : list (Product T)) :
  (length (filter price_appended pro)
   <= length (filter rating_appended pro))%nat.
Proof.
  induction pro as [|product pro IH]; simpl; [lia|].
  unfold price_appended at 1.
  destruct (rating_appended product); simpl; [|exact IH].
  destruct (match price_field product with Parsed _ => true | _ => false end);
    simpl; lia.
Qed.

Lemma filter_price_lt (pro : list (Product T)) (product : Product T) :
  In product pro ->
  rating_appended product = true -> price_appended product = false ->
  (length (filter price_appended pro)
   < length (filter rating_appended pro))%nat.
Proof.
  induction pro as [|q pro IH]; intros I Hr Hp; [destruct I|].
  simpl. destruct I as [-> | I].
  - rewrite Hr, Hp. simpl. pose proof (filter_price_le pro). lia.
  - specialize (IH I Hr Hp). unfold price_appended at 1.
    destruct (rating_appended q); simpl; [|exact IH].
    destruct (match price_field q with Parsed _ => true | _ => false end);
      simpl; lia.
Qed.

(** X15. The extraction loop returns one rating for every product whose
    rating text is readable (0 for a missing rating) and one price for
    every such product whose price text is a number: there are never more
    prices than ratings, and strictly fewer as soon as one product has a
    rating appended but no price. *)
Theorem extract_lengths (pro : list (Product T)) :
  length (fst (extract_products pro)) = length (filter rating_appended pro)
  /\ length (snd (extract_products pro)) = length (filter price_appended pro)
  /\ (length (snd (extract_products pro))
      <= length (fst (extract_products pro)))%nat
  /\ ((exists product, In product pro /\ rating_appended product = true
                       /\ price_appended product = false) ->
      (length (snd (extract_products pro))
       < length (fst (extract_products pro)))%nat).
Proof.
  unfold extract_products.
  destruct (fold_extract_lengths pro ([], [])) as [E1 E2]. simpl in E1, E2.
  rewrite E1, E2. repeat split.
  - apply filter_price_le.
  - intros (product & I & Hr & Hp). now apply (filter_price_lt pro product).
Qed.

End ExtractionFacts.

Lemma extract_lengths_witness :
  (length (snd (extract_products
                  [MkProduct (Parsed 4%float) (Parsed 10%float);
                   MkProduct Missing Unparsable]))
   < length (fst (extract_products
                    [MkProduct (Parsed 4%float) (Parsed 10%float);
                     MkProduct Missing Unparsable])))%nat.
Proof.
  apply extract_lengths.
  exists (MkProduct Missing Unparsable). simpl. auto.
Defined.

(* ================================================================== *)
(** * From the scraped products to the optimisation *)
(* ================================================================== *)

Section Pipeline.

Context {T : Type} `{Scalar T}.
Variable np_mean : list T -> T.

Lemma estimate_length_mismatch (sk : Sklearn T) (prices ratings : list T)
    (max_theoretical_demand : option T) :
  length prices <> length ratings ->
  estimate_demand_parameters sk prices ratings max_theoretical_demand = None.
Proof.
  intros Hlen. unfold estimate_demand_parameters.
  destruct (is_empty prices || is_empty ratings); [reflexivity|].
  apply Nat.eqb_neq in Hlen. now rewrite Hlen.
Qed.

Lemma people_rate_length (ratings : list T) :
  length (people_rate np_mean ratings) = length ratings.
Proof. unfold people_rate. apply length_map. Qed.

Lemma product_data_parts (pro : list (Product T)) :
  product_data np_mean pro
  = (snd (extract_products pro),
     people_rate np_mean (fst (extract_products pro))).
Proof.
  unfold product_data. now destruct (extract_products pro).
Qed.

(** X16. One product with a rating appended but no price makes the whole
    optimisation fail: the scraper then returns fewer prices than ratings,
    the estimator rejects the two lengths, and [run_optimization] returns
    [None], for every library, cost and [max_theoretical_demand]. *)
Theorem unpriced_product_fails (sk : Sklearn T) (pro : list (Product T))
    (supplied_cost max_theoretical_demand : option T) :
  (exists product, In product pro /\ rating_appended product = true
                   /\ price_appended product = false) ->
  run_optimization sk (fst (product_data np_mean pro))
    (snd (product_data np_mean pro)) supplied_cost max_theoretical_demand
  = None.
Proof.
  intros (product & I & Hr & Hp).
  apply run_optimization_none, estimate_length_mismatch.
  rewrite product_data_parts. simpl. rewrite people_rate_length.
  unfold extract_products.
  destruct (fold_extract_lengths pro ([], [])) as [E1 E2]. simpl in E1, E2.
  rewrite E1, E2. pose proof (filter_price_lt pro product I Hr Hp). lia.
Qed.

(** X17. When no rating is above zero (every rating missing, say) the
    imputation has no mean to fill in and returns a list of zeros of the
    same length, whatever [np.mean] is. *)
Theorem people_rate_all_missing (ratings : list T) :
  valid_ratings ratings = [] ->
  people_rate np_mean ratings = repeat (s_of_Z 0) (length ratings).
Proof.
  intros V. unfold people_rate, mean_rating. rewrite V.
  assert (Hall : forall r, In r ratings -> s_ltb (s_of_Z 0) r = false).
  { intros r I. destruct (s_ltb (s_of_Z 0) r) eqn:C; [|reflexivity].
    assert (In r (valid_ratings ratings))
      by (apply filter_In; now split).
    rewrite V in H0. destruct H0. }
  clear V. induction ratings as [|r ratings IH]; [reflexivity|].
  simpl. rewrite (Hall r (or_introl eq_refl)). f_equal.
  apply IH. intros q I. apply Hall. now right.
Qed.

End Pipeline.

Lemma unpriced_product_fails_witness :
  run_optimization ols
    (fst (product_data (@mean float _)
            [MkProduct (Parsed 4%float) (Parsed 10%float);
             MkProduct (Parsed 3%float) Missing]))
    (snd (product_data (@mean float _)
            [MkProduct (Parsed 4%float) (Parsed 10%float);
             MkProduct (Parsed 3%float) Missing]))
    None None = None.
Proof.
  apply unpriced_product_fails.
  exists (MkProduct (Parsed 3%float) Missing). simpl. auto.
Defined.

Lemma people_rate_all_missing_witness :
  people_rate (@mean float _) [0%float; 0%float; (-1)%float]
  = repeat (F64.of_Z 0) 3.
Proof.
  exact (people_rate_all_missing (@mean float _)
           [0%float; 0%float; (-1)%float] eq_refl).
Defined.

(** All-zero ratings make the regression target NaN: a library that
    rejects a NaN target makes the estimator return [None]. *)
Lemma zero_frame_fails (sk : Sklearn float) (prices ratings : list float)
    (max_theoretical_demand : option float) :
  (forall fit_intercept X y,
     existsb s_isnan y = true ->
     LinearRegression_fit sk fit_intercept X y = None) ->
  (forall r, In r ratings -> r = 0%float \/ r = (-0)%float) ->
  estimate_demand_parameters sk prices ratings max_theoretical_demand = None.
Proof.
  intros Hfit Hz. unfold estimate_demand_parameters.
  destruct (is_empty prices || is_empty ratings); [reflexivity|].
  destruct (negb _); [reflexivity|].
  destruct (dropna _) as [|row rows] eqn:D; [reflexivity|].
  unfold fit_demand_curve. rewrite Hfit; [reflexivity|].
  unfold demand_proportion. simpl map. simpl existsb.
  rewrite ZeroRatings.target_is_nan; [reflexivity| |].
  - apply (ZeroRatings.frame_ratings prices ratings); [exact Hz|].
    rewrite D. now left.
  - assert (I : In (py_max (snd row) (map snd rows))
                   (map snd (row :: rows))) by apply py_max_In.
    apply in_map_iff in I as (row' & <- & I).
    apply (ZeroRatings.frame_ratings prices ratings); [exact Hz|].
    now rewrite D.
Qed.

(** X18. On doubles, when no scraped product has a rating above zero, the
    optimisation fails: the imputed ratings are all zero, the regression
    target is NaN, and for a library whose [fit] raises on a NaN target
    [run_optimization] returns [None]. *)
Theorem unrated_products_fail (sk : Sklearn float)
    (np_mean : list float -> float) (pro : list (Product float))
    (supplied_cost max_theoretical_demand : option float) :
  (forall fit_intercept X y,
     existsb s_isnan y = true ->
     LinearRegression_fit sk fit_intercept X y = None) ->
  valid_ratings (fst (extract_products pro)) = [] ->
  run_optimization sk (fst (product_data np_mean pro))
    (snd (product_data np_mean pro)) supplied_cost max_theoretical_demand
  = None.
Proof.
  intros Hfit V. apply run_optimization_none.
  rewrite product_data_parts. simpl.
  rewrite (people_rate_all_missing np_mean _ V).
  apply zero_frame_fails; [exact Hfit|].
  intros r I. apply repeat_spec in I. now left.
Qed.

Lemma unrated_products_fail_witness :
  run_optimization ols
    (fst (product_data (@mean float _)
            [MkProduct Missing (Parsed 10%float);
             MkProduct Missing (Parsed 20%float)]))
    (snd (product_data (@mean float _)
            [MkProduct Missing (Parsed 10%float);
             MkProduct Missing (Parsed 20%float)]))
    None None = None.
Proof.
  apply unrated_products_fail.
  - intros fi X y E. now apply ols_fit_rejects_nan.
  - reflexivity.
Defined.

(* ================================================================== *)
(** * The imputation in exact arithmetic *)
(* ================================================================== *)

Section ExactImputation.

Local Open Scope R_scope.

Lemma fold_left_Rplus (l : list R) : forall a,
  fold_left Rplus l a = a + fold_left Rplus l 0.
Proof.
  induction l as [|x l IH]; intros a; simpl; [lra|].
  rewrite (IH (a + x)), (IH (0 + x)). lra.
Qed.

Lemma sum_cons (x : R) (l : list R) : sum (x :: l) = x + sum l.
Proof.
  unfold sum. simpl. rewrite fold_left_Rplus. lra.
Qed.

Lemma sum_positive (l : list R) :
  l <> [] -> (forall x, In x l -> 0 < x) -> 0 < sum l.
Proof.
  induction l as [|x l IH]; intros N P; [contradiction|].
  rewrite sum_cons. assert (0 < x) by (apply P; now left).
  destruct l as [|y l]; [unfold sum; simpl; lra|].
  assert (0 < sum (y :: l)).
  { apply IH; [discriminate|]. intros z I. apply P. now right. }
  lra.
Qed.

Lemma valid_ratings_positive (ratings : list R) (r : R) :
  In r (valid_ratings ratings) -> 0 < r.
Proof.
  unfold valid_ratings. intros I. apply filter_In in I as [_ C].
  now apply ExactFacts.ltb_true in C.
Qed.

(** The sum of the imputed ratings: the valid ones, and the fill-in for
    each of the others. *)
Lemma sum_imputed (m : R) (ratings : list R) :
  sum (map (fun r => if Exact.ltb 0 r then r else m) ratings)
  = sum (valid_ratings ratings)
    + (IZR (Z.of_nat (length ratings))
       - IZR (Z.of_nat (length (valid_ratings ratings)))) * m.
Proof.
  induction ratings as [|r ratings IH]; [unfold sum; simpl; lra|].
  cbn [map]. rewrite sum_cons, IH.
  unfold valid_ratings. cbn [filter length]. simpl s_ltb. simpl s_of_Z.
  rewrite Nat2Z.inj_succ, succ_IZR.
  destruct (Exact.ltb 0 r).
  - cbn [length]. rewrite sum_cons, Nat2Z.inj_succ, succ_IZR.
    unfold valid_ratings. simpl s_ltb. simpl s_of_Z. lra.
  - unfold valid_ratings. simpl s_ltb. simpl s_of_Z. lra.
Qed.

(** X19. In exact arithmetic, with [np.mean] the arithmetic mean: as soon
    as one rating is above zero, every imputed rating is above zero, and
    the mean of the imputed ratings is the mean of the ratings that were
    above zero (filling in the mean does not move it). *)
Theorem people_rate_mean (ratings : list R) :
  valid_ratings ratings <> [] ->
  (forall r, In r (people_rate mean ratings) -> 0 < r)
  /\ mean (people_rate mean ratings) = mean (valid_ratings ratings).
Proof.
  intros V.
  assert (Hk : 0 < IZR (Z.of_nat (length (valid_ratings ratings)))).
  { apply IZR_lt. destruct (valid_ratings ratings); [contradiction|].
    simpl length. lia. }
  assert (Hn : 0 < IZR (Z.of_nat (length ratings))).
  { apply IZR_lt. destruct ratings; [contradiction|]. simpl length. lia. }
  assert (Hs : 0 < sum (valid_ratings ratings)).
  { apply sum_positive; [exact V|apply valid_ratings_positive]. }
  assert (Em : mean_rating mean ratings = mean (valid_ratings ratings)).
  { unfold mean_rating. destruct (valid_ratings ratings); [contradiction|].
    reflexivity. }
  assert (Hm : 0 < mean (valid_ratings ratings)).
  { unfold mean. simpl. apply Rmult_lt_0_compat; [exact Hs|].
    now apply Rinv_0_lt_compat. }
  split.
  - intros r I. unfold people_rate in I. rewrite Em in I.
    apply in_map_iff in I as (q & <- & _). simpl.
    destruct (Exact.ltb 0 q) eqn:C; [now apply ExactFacts.ltb_true in C|].
    exact Hm.
  - unfold people_rate. rewrite Em.
    unfold mean at 1. rewrite length_map. simpl s_ltb. simpl s_of_Z.
    rewrite sum_imputed. unfold mean. simpl. field. split; lra.
Qed.

Lemma people_rate_mean_witness :
  mean (people_rate mean [4; 0; 2]) = mean (valid_ratings [4; 0; 2]).
Proof.
  apply (people_rate_mean [4; 0; 2]).
  unfold valid_ratings. simpl.
  destruct (Exact.ltb 0 4) eqn:C; [discriminate|].
  apply ExactFacts.ltb_false in C. lra.
Defined.

End ExactImputation.

(* ================================================================== *)
(** * The search URL *)
(* ================================================================== *)

Module UrlFacts.

Import String Ascii Url.
Local Open Scope string_scope.

Lemma free_of_append (c : ascii) (s t : string) :
  free_of c (s ++ t) = free_of c s && free_of c t.
Proof.
  induction s as [|d s IH]; simpl; [reflexivity|].
  now rewrite IH, andb_assoc.
Qed.

Lemma replace_char_free (old new : ascii) (s : string) :
  Ascii.eqb new old = false ->
  free_of old (replace_char old new s) = true.
Proof.
  intros N. induction s as [|d s IH]; simpl; [reflexivity|].
  rewrite IH, andb_true_r.
  destruct (Ascii.eqb d old) eqn:E; [now rewrite N | now rewrite E].
Qed.

Lemma uint_free (d : Decimal.uint) :
  free_of " " (DecimalString.NilEmpty.string_of_uint d) = true.
Proof. induction d; simpl; auto. Qed.

Lemma str_free (page : Z) : free_of " " (str page) = true.
Proof.
  unfold str, DecimalString.NilZero.string_of_int,
    DecimalString.NilZero.string_of_uint.
  destruct (Z.to_int page) as [d|d]; destruct d; simpl;
    try reflexivity; apply uint_free.
Qed.

Lemma prefix_append (s t : string) : prefix s (s ++ t) = true.
Proof.
  induction s as [|c s IH]; simpl; [now destruct t|].
  now destruct (ascii_dec c c).
Qed.

(** X20. The search URL never holds a space when [sort_by] holds none:
    every space of the product name is replaced by a plus sign, and the
    page number is written with digits (and a sign) only; and the URL
    always starts with the base URL of the site. *)
Theorem get_search_url_no_space (product_name sort_by : string) (page : Z) :
  free_of " " sort_by = true ->
  free_of " " (get_search_url product_name sort_by page) = true
  /\ prefix BASE_URL (get_search_url product_name sort_by page) = true.
Proof.
  intros S. unfold get_search_url. split.
  - rewrite !free_of_append, replace_char_free, S, str_free by reflexivity.
    reflexivity.
  - apply prefix_append.
Qed.

Lemma get_search_url_no_space_witness :
  free_of " " (get_search_url "usb c kablo" default_sort_by 2) = true.
Proof.
  apply (get_search_url_no_space "usb c kablo" default_sort_by 2).
  reflexivity.
Defined.

End UrlFacts.

(* ================================================================== *)
(** * The demand on doubles *)
(* ================================================================== *)

(** X21. On doubles the demand is never NaN, whatever the price and the
    parameters (NaN and infinities included): [max(0, v)] returns [v] only
    when it compares above zero, and 0 otherwise. *)
Theorem demand_never_nan (price a_d b_d : float) :
  PrimFloat.is_nan (talep_fonksiyonu price a_d b_d) = false.
Proof.
  rewrite talep_fonksiyonu_cases. simpl. unfold PrimFloat.zero.
  destruct (0 <? a_d - b_d * price)%float eqn:E; [|reflexivity].
  destruct (PrimFloat.is_nan (a_d - b_d * price)) eqn:N; [|reflexivity].
  apply F64Facts.is_nan_spec in N.
  rewrite FloatAxioms.ltb_spec, N in E. discriminate.
Qed.
